(** * Factory methods of the Mirage server (addon/server.js)

    A shallow embedding of [build], [buildList], [create], [createList]
    and of the private helpers [_validateTraits], [_mergeExtensions] and
    [_mapAssociationsFromAttributes], followed by the properties of the
    record synthesis engine.

    JavaScript values are an inductive type, objects are association
    lists in insertion order, and the server's mutable state ([db] and
    [factorySequences]) is threaded through a state monad in which an
    exception keeps the state reached when it was thrown.  The two maps
    the server keeps as plain objects ([_factoryMap], [factorySequences])
    and the attribute map [_mergeExtensions] indexes by trait name are
    read with [object[key]], which also finds what a plain object inherits
    from [Object.prototype]; numbers are doubles, so a counter stops
    growing at [2^53]. *)

From Stdlib Require Import List String Ascii Bool ZArith QArith Qround Lia.
From Stdlib Require Import DecimalString.
Import ListNotations.
Open Scope string_scope.

Set Implicit Arguments.
Set Warnings "-register-all".

(* ================================================================= *)
(** ** What every plain object inherits *)

(** The property names of [Object.prototype]: [o[k]] finds them on any
    plain object [o] that has no own property [k].  All are functions but
    [__proto__], which reads as [Object.prototype] itself. *)
Definition objectPrototypeMembers : list string :=
  ["constructor"; "__defineGetter__"; "__defineSetter__"; "hasOwnProperty";
   "__lookupGetter__"; "__lookupSetter__"; "isPrototypeOf";
   "propertyIsEnumerable"; "toString"; "valueOf"; "__proto__";
   "toLocaleString"].

Definition inheritedMember (k : string) : bool :=
  existsb (String.eqb k) objectPrototypeMembers.

(** What [this.factorySequences[camelizedType]] can read: a number written
    by an earlier [build] ([Count]); the inherited member of that name
    ([Inherited]); or the string an earlier [build] made of such a member
    ([Text member ones]: the member converted to a string, followed by
    [ones] characters [1], since [+] concatenates as soon as one side is
    not a number). *)
Inductive Sequence : Type :=
| Count (n : Z)
| Text (member : string) (ones : nat)
| Inherited (member : string).

(* ================================================================= *)
(** ** JavaScript values *)

(** Finite numbers are rationals (enough to tell integers from
    non-integers); [VNaN] is kept because [undefined + 1] produces it.
    [VFun] is an attribute generator of a factory: a function of the
    sequence it is called with, [None] standing for [undefined].
    [VInstance] is an instance of a class (a db collection, a model):
    an object that is neither plain nor an array. *)
Inductive value : Type :=
| VUndefined
| VNull
| VBool (b : bool)
| VNum (q : Q)
| VNaN
| VStr (s : string)
| VObj (props : list (string * value))
| VArr (items : list value)
| VFun (f : option Sequence -> value)
| VInstance (className : string) (props : list (string * value)).

Definition obj : Type := list (string * value).

(** *** Objects: own string-keyed properties in insertion order

    (JavaScript lists integer-like keys first; attribute names are not
    such keys.) *)
Module Obj.
Section Ops.
Variable A : Type.

Fixpoint lookup (k : string) (o : list (string * A)) : option A :=
  match o with
  | [] => None
  | (k', v) :: rest => if String.eqb k k' then Some v else lookup k rest
  end.

(** [o[k] = v]: an existing key keeps its place, a new key goes last. *)
Fixpoint set (k : string) (v : A) (o : list (string * A)) : list (string * A) :=
  match o with
  | [] => [(k, v)]
  | (k', v') :: rest =>
      if String.eqb k k' then (k', v) :: rest else (k', v') :: set k v rest
  end.

(** [delete o[k]]. *)
Fixpoint delete (k : string) (o : list (string * A)) : list (string * A) :=
  match o with
  | [] => []
  | (k', v') :: rest =>
      if String.eqb k k' then delete k rest else (k', v') :: delete k rest
  end.

(** [Object.keys(o)]. *)
Definition keys (o : list (string * A)) : list string := map fst o.
End Ops.
End Obj.

(** Reading an own property that may be absent: [o[k]] for the keys of
    attribute maps and of marker objects. *)
Definition get (o : obj) (k : string) : value :=
  match Obj.lookup k o with
  | Some v => v
  | None => VUndefined
  end.

(** lodash [_assign(target, source)] for one source: the source's own
    enumerable string-keyed properties are written onto the target in the
    source's order.  An array and a string own their indices; a primitive
    or a function owns nothing that is copied. *)
Definition assignProps (target source : obj) : obj :=
  fold_left (fun acc kv => Obj.set (fst kv) (snd kv) acc) source target.

Definition indexKey (i : nat) : string :=
  NilZero.string_of_uint (Nat.to_uint i).

Fixpoint indexed (i : nat) (items : list value) : obj :=
  match items with
  | [] => []
  | item :: rest => (indexKey i, item) :: indexed (S i) rest
  end.

Fixpoint chars (s : string) : list value :=
  match s with
  | EmptyString => []
  | String c rest => VStr (String c EmptyString) :: chars rest
  end.

Definition ownProps (source : value) : obj :=
  match source with
  | VObj props | VInstance _ props => props
  | VArr items => indexed 0 items
  | VStr s => indexed 0 (chars s)
  | _ => []
  end.

Definition _assign (target : obj) (source : value) : obj :=
  assignProps target (ownProps source).

(** Truthiness, as [if (x)], [!x], [x && y] and [x || y] read it. *)
Definition truthy (v : value) : bool :=
  match v with
  | VUndefined | VNull | VNaN => false
  | VBool b => b
  | VNum q => negb (Qnum q =? 0)%Z
  | VStr s => negb (String.eqb s "")
  | VObj _ | VArr _ | VFun _ | VInstance _ _ => true
  end.

Definition typeOf (v : value) : string :=
  match v with
  | VUndefined => "undefined"
  | VBool _ => "boolean"
  | VNum _ | VNaN => "number"
  | VStr _ => "string"
  | VFun _ => "function"
  | VNull | VObj _ | VArr _ | VInstance _ _ => "object"
  end.

(** lodash [_isPlainObject] and [_isInteger], and [Array.isArray]. *)
Definition _isPlainObject (v : value) : bool :=
  match v with
  | VObj _ => true
  | _ => false
  end.

Definition _isInteger (v : value) : bool :=
  match v with
  | VNum q => (Z.pos (Qden (Qred q)) =? 1)%Z
  | _ => false
  end.

Definition isArray (v : value) : bool :=
  match v with
  | VArr _ => true
  | _ => false
  end.

(** lodash [_find(list, pred)]: the first match, else [undefined]. *)
Definition _find (pred : value -> bool) (l : list value) : value :=
  match find pred l with
  | Some v => v
  | None => VUndefined
  end.

(** The filter [(arg) => arg && typeof arg === 'string'] of [build] and
    [create]: the non-empty string arguments, in order. *)
Definition isTraitArg (arg : value) : bool :=
  truthy arg && String.eqb (typeOf arg) "string".

Definition stringOf (v : value) : string :=
  match v with
  | VStr s => s
  | _ => ""
  end.

Definition traitArgs (args : list value) : list string :=
  map stringOf (filter isTraitArg args).

(* ================================================================= *)
(** ** Errors *)

(** Modelled from the spec: the failure taxonomy.  The source raises every
    failure through [assert] (module ./assert, defined outside server.js)
    or [throw new Error]; the kind attached to each site is the one
    the specification's error taxonomy gives it.  [TypeError] is the
    runtime's own error (reading a property of [undefined], spreading a
    non-iterable, calling a non-function). *)
Inductive ErrorKind : Type :=
| ConfigurationError
| AssociationError
| ValidationError
| TypeError
| CollaboratorError.

Record Error : Type := mkError { kind : ErrorKind; message : string }.

Inductive outcome (A : Type) : Type :=
| Ok (a : A)
| Throw (e : Error)
| OutOfFuel.

Arguments Throw {A} e.
Arguments OutOfFuel {A}.

(** Property read [v.k].  Only the keys the factory methods read matter
    ([id], [traitsAndOverrides], [extension] and the two markers below);
    none of them is a built-in property of a primitive, an array or a
    function, so those yield [undefined]. *)
Definition getProp (v : value) (k : string) : outcome value :=
  match v with
  | VUndefined =>
      Throw (mkError TypeError ("Cannot read property '" ++ k ++ "' of undefined"))
  | VNull =>
      Throw (mkError TypeError ("Cannot read property '" ++ k ++ "' of null"))
  | VObj props | VInstance _ props => Ok (get props k)
  | _ => Ok VUndefined
  end.

(** Spread in a call, [f(...v)]: arrays and strings are iterable. *)
Definition spread (v : value) : outcome (list value) :=
  match v with
  | VArr items => Ok items
  | VStr s => Ok (chars s)
  | _ => Throw (mkError TypeError (typeOf v ++ " is not iterable"))
  end.

(* ================================================================= *)
(** ** Factory helpers that live outside server.js *)

(** Modelled from the spec: the relationship placeholder made by the
    [association] helper and recognised by [isAssociation]
    (utils/is-association, imported by server.js and defined outside
    it).  It is a marker object carrying the trait names and
    overrides to apply to the related record; server.js reads them as
    [factoryAssociation.traitsAndOverrides]. *)
Definition association (traitsAndOverrides : list value) : value :=
  VObj [("__isAssociation__", VBool true);
        ("traitsAndOverrides", VArr traitsAndOverrides)].

Definition isAssociation (v : value) : bool :=
  match v with
  | VObj props =>
      match get props "__isAssociation__" with
      | VBool true => true
      | _ => false
      end
  | _ => false
  end.

(** Modelled from the spec: a trait of a factory (the [trait] helper is
    defined outside server.js): a marker object whose [extension] is
    the partial attribute map; server.js reads it as
    [attrs[traitName].extension]. *)
Definition trait (extension : obj) : value :=
  VObj [("extension", VObj extension); ("__isTrait__", VBool true)].

Definition isTraitValue (v : value) : bool :=
  match v with
  | VObj props =>
      match get props "__isTrait__" with
      | VBool true => true
      | _ => false
      end
  | _ => false
  end.

(* ================================================================= *)
(** ** Collaborators of the server *)

(** The inflector (./utils/inflector) and utils/normalize-name: pure string
    transforms owned by other modules. *)
Class Naming : Type := {
  camelize : string -> string;
  pluralize : string -> string;
  singularize : string -> string;
  toCollectionName : string -> string;
  toInternalCollectionName : string -> string
}.

(** A relationship declared on a model class ([orm/associations]). *)
Inductive Association : Type :=
| BelongsTo (modelName : string)
| HasMany (modelName : string).

Definition Association_modelName (a : Association) : string :=
  match a with
  | BelongsTo m | HasMany m => m
  end.

(** [association instanceof BelongsTo]. *)
Definition instanceofBelongsTo (a : Association) : bool :=
  match a with
  | BelongsTo _ => true
  | HasMany _ => false
  end.

(** The store ([Db], ./db) and the ORM ([Schema], ./orm/schema).  The
    server always owns a schema ([config] creates one when there is none),
    and the factory methods never register models, so the schema is read
    only here.
    - [db_get d name] is [this.db[name]];
    - [collection_insert c attrs] is [c.insert(attrs)];
    - [schema_modelFor name] is [this.schema.modelFor(name)];
    - [schema_collection name] is [this.schema[name]], and
      [schema_create name attrs] its [create(attrs)];
    - [schema_modelClassFor modelName] is
      [this.schema.modelClassFor(modelName)], whose [associationFor] is the
      function it returns. *)
Class Backend : Type := {
  Db : Type;
  db_get : Db -> string -> value;
  collection_insert : value -> value -> Db -> Db * outcome value;
  schema_modelFor : string -> value;
  schema_collection : string -> value;
  schema_create : string -> value -> Db -> Db * outcome value;
  schema_modelClassFor : string -> outcome (string -> option Association)
}.

(* ================================================================= *)
(** ** The server state and its monad *)

Section Engine.
Context {naming : Naming} {backend : Backend}.

(** The fields of [this] that the factory methods write: the store, and
    the per-type sequence counters ([undefined] until the first
    [build]). *)
Record Server : Type := mkServer {
  db : Db;
  factorySequences : option (list (string * Sequence))
}.

(** A computation on the server: it always leaves a state behind, also
    when it throws. *)
Definition M (A : Type) : Type := Server -> Server * outcome A.

Definition ret {A} (a : A) : M A := fun s => (s, Ok a).

Definition bind {A B} (m : M A) (f : A -> M B) : M B :=
  fun s =>
    match m s with
    | (s', Ok a) => f a s'
    | (s', Throw e) => (s', Throw e)
    | (s', OutOfFuel) => (s', OutOfFuel)
    end.

Definition throw {A} (k : ErrorKind) (msg : string) : M A :=
  fun s => (s, Throw (mkError k msg)).

Definition outOfFuel {A} : M A := fun s => (s, OutOfFuel).

(** A pure step that may throw. *)
Definition lift {A} (o : outcome A) : M A := fun s => (s, o).

(** A step of a collaborator on the store. *)
Definition onDb {A} (f : Db -> Db * outcome A) : M A :=
  fun s =>
    let (d, o) := f (db s) in
    (mkServer d (factorySequences s), o).

(** [assert(cond, msg)], with the kind of failure the site stands for. *)
Definition assert (cond : bool) (k : ErrorKind) (msg : string) : M unit :=
  if cond then ret tt else throw k msg.

Notation "x <- m ;; k" := (bind m (fun x => k))
  (at level 61, m at next level, right associativity).
Notation "m ;; k" := (bind m (fun _ => k))
  (at level 61, right associativity).

(** [list.forEach(f)]. *)
Fixpoint forEach {A} (f : A -> M unit) (l : list A) : M unit :=
  match l with
  | [] => ret tt
  | x :: rest => f x ;; forEach f rest
  end.

(* --------------------------------------------------------------- *)
(** *** Factories *)

(** An [afterCreate] callback, called as [afterCreate(modelOrRecord,
    server)]: whatever it does to the server. *)
Definition Hook : Type := value -> M unit.

(** Modelled from the spec: the factory class (./factory, defined outside
    server.js): the attribute map of a FactoryDefinition, which
    maps an attribute name to a static value, a generator of the sequence
    number, a relationship placeholder or a trait; and
    [extractAfterCreateCallbacks({ traits })], the post-creation callbacks
    of the applied traits. *)
Record Factory : Type := mkFactory {
  attrs : obj;
  extractAfterCreateCallbacks : list string -> list Hook
}.

(** Modelled from the spec: [Factory.extend(extension)] is a new factory
    whose attribute map is a copy of the receiver's with the extension
    written over it; the receiver stays reusable. *)
Definition Factory_extend (f : Factory) (extension : obj) : Factory :=
  mkFactory (assignProps (assignProps [] (attrs f)) extension)
            (extractAfterCreateCallbacks f).

(** Modelled from the spec: [factory.isTrait(name)]. *)
Definition Factory_isTrait (f : Factory) (name : string) : bool :=
  isTraitValue (get (attrs f) name).

(** Modelled from the spec: [new Factory().build(sequence)]: a static
    value is kept, a generator is applied to the sequence, and a
    trait is not an attribute of the record. *)
Definition buildAttr (sequence : option Sequence) (kv : string * value)
  : list (string * value) :=
  let (k, v) := kv in
  if isTraitValue v then []
  else match v with
       | VFun f => [(k, f sequence)]
       | _ => [(k, v)]
       end.

Definition Factory_build (f : Factory) (sequence : option Sequence) : value :=
  VObj (flat_map (buildAttr sequence) (attrs f)).

(** [this._factoryMap]: assigned by [loadFactories], only read by the
    methods below. *)
Variable _factoryMap : option (list (string * Factory)).

(** What [this._factoryMap[camelizedType]] finds when it is truthy: a
    factory registered under that name, or the member of that name that
    the map, a plain object, inherits. *)
Inductive FactoryEntry : Type :=
| Registered (factory : Factory)
| InheritedMember (member : string).

(** [factoryFor(type)]: [this._factoryMap && this._factoryMap[camelizedType]]
    reads nothing while the map is [undefined]. *)
Definition factoryFor (type : string) : option FactoryEntry :=
  let camelizedType := camelize type in
  match _factoryMap with
  | Some factoryMap =>
      match Obj.lookup camelizedType factoryMap with
      | Some factory => Some (Registered factory)
      | None =>
          if inheritedMember camelizedType
          then Some (InheritedMember camelizedType)
          else None
      end
  | None => None
  end.

(* --------------------------------------------------------------- *)
(** *** Sequence counters *)

(** [n + 1] on an integer-valued double: exact from [-2^53] up to
    [2^53 - 1]; between [2^53] and [2^54] in magnitude, where doubles are
    the even integers, the sum falls halfway between two of them and is
    rounded to the one whose significand is even; further out the sum is
    rounded back to [n]. *)
Definition plusOne (n : Z) : Z :=
  if ((- 2 ^ 53 <=? n) && (n <? 2 ^ 53))%Z then (n + 1)%Z
  else if ((- 2 ^ 54 <? n) && (n <? 2 ^ 54))%Z then
    (if Z.even (n / 2) then n else n + 2)%Z
  else n.

(** [counter + 1 || 0]: [undefined + 1] is [NaN], which is falsy, and so
    is [0]; anything that is not a number is converted to a string, to
    which [1] is appended, and such a string is truthy. *)
Definition nextSequence (counter : option Sequence) : Sequence :=
  match counter with
  | None => Count 0
  | Some (Count n) => if (plusOne n =? 0)%Z then Count 0 else Count (plusOne n)
  | Some (Text member ones) => Text member (S ones)
  | Some (Inherited member) => Text member 1
  end.

(** [this.factorySequences = this.factorySequences || {};
     this.factorySequences[camelizedType] =
       this.factorySequences[camelizedType] + 1 || 0;] *)
Definition sequencesOf (s : Server) : list (string * Sequence) :=
  match factorySequences s with
  | Some seqs => seqs
  | None => []
  end.

(** [factorySequences[camelizedType]], read on a plain object. *)
Definition readSequence (camelizedType : string)
  (seqs : list (string * Sequence)) : option Sequence :=
  match Obj.lookup camelizedType seqs with
  | Some counter => Some counter
  | None =>
      if inheritedMember camelizedType then Some (Inherited camelizedType)
      else None
  end.

(** [factorySequences[camelizedType] = counter]: on an object without an
    own property [__proto__], an assignment to [__proto__] goes to the
    setter of [Object.prototype], which ignores what is not an object. *)
Definition writeSequence (camelizedType : string) (counter : Sequence)
  (seqs : list (string * Sequence)) : list (string * Sequence) :=
  match Obj.lookup camelizedType seqs with
  | Some _ => Obj.set camelizedType counter seqs
  | None =>
      if String.eqb camelizedType "__proto__" then seqs
      else Obj.set camelizedType counter seqs
  end.

Definition sequenceOf (camelizedType : string) (s : Server)
  : option Sequence :=
  readSequence camelizedType (sequencesOf s).

Definition advance (camelizedType : string) (s : Server) : Server :=
  let seqs := sequencesOf s in
  mkServer (db s)
    (Some (writeSequence camelizedType
             (nextSequence (readSequence camelizedType seqs)) seqs)).

Definition advanceSequence (camelizedType : string) : M unit :=
  fun s => (advance camelizedType s, Ok tt).

(* --------------------------------------------------------------- *)
(** *** Private helpers *)

Definition unknownTraitMessage (traitName type : string) : string :=
  "'" ++ traitName ++ "' trait is not registered in '" ++ type ++ "' factory".

(** [_validateTraits(traits, factory, type)]. *)
Fixpoint _validateTraits (traits : list string) (factory : Factory)
  (type : string) : M unit :=
  match traits with
  | [] => ret tt
  | traitName :: rest =>
      if negb (Factory_isTrait factory traitName) then
        throw ConfigurationError (unknownTraitMessage traitName type)
      else _validateTraits rest factory type
  end.

(** [overrides || {}], and the default [overrides = {}] of a parameter
    left [undefined]. *)
Definition orEmpty (overrides : value) : value :=
  if truthy overrides then overrides else VObj [].

Definition propsOf (v : value) : obj :=
  match v with
  | VObj props => props
  | _ => []
  end.

(** [attrs[traitName].extension], read on the plain object [attrs]: an
    inherited member (a function, or [Object.prototype]) has no
    [extension]. *)
Definition readExtension (attrs : obj) (traitName : string) : outcome value :=
  match Obj.lookup traitName attrs with
  | Some v => getProp v "extension"
  | None =>
      if inheritedMember traitName then Ok VUndefined
      else getProp VUndefined "extension"
  end.

(** [traits.map((traitName) => attrs[traitName].extension)]. *)
Fixpoint traitExtensions (attrs : obj) (traits : list string)
  : outcome (list value) :=
  match traits with
  | [] => Ok []
  | traitName :: rest =>
      match readExtension attrs traitName with
      | Ok extension =>
          match traitExtensions attrs rest with
          | Ok extensions => Ok (extension :: extensions)
          | Throw e => Throw e
          | OutOfFuel => OutOfFuel
          end
      | Throw e => Throw e
      | OutOfFuel => OutOfFuel
      end
  end.

(** [_mergeExtensions(attrs, traits, overrides)]. *)
Definition _mergeExtensions (attrs : obj) (traits : list string)
  (overrides : value) : outcome obj :=
  match traitExtensions attrs traits with
  | Ok allExtensions =>
      let allExtensions := (allExtensions ++ [orEmpty overrides])%list in
      Ok (fold_left _assign allExtensions [])
  | Throw e => Throw e
  | OutOfFuel => OutOfFuel
  end.

Definition notBelongsToMessage (attr modelName : string) : string :=
  "You're using the `association` factory helper on the '" ++ attr
  ++ "' attribute of your " ++ modelName
  ++ " factory, but that attribute is not a `belongsTo` association. Read the Factories docs for more information: http://www.ember-cli-mirage.com/docs/v0.3.x/factories/#factories-and-relationships".

Definition selfReferentialMessage (attr modelName : string) : string :=
  "You're using the association() helper on your " ++ modelName
  ++ " factory for " ++ attr
  ++ ", which is a belongsTo self-referential relationship. You can't do this as it will lead to infinite recursion. You can move the helper inside of a trait and use it selectively.".

Section OpenRecursion.
(** [this.create], as seen from inside [build]. *)
Variable create : string -> list value -> M value.

(** The body of the [forEach] of [_mapAssociationsFromAttributes], for
    one attribute; [attributes] is the object being rewritten.
    [attributes[attr]] is the read of an own key; [overrides[attr]] is
    read as an own property too, relationship attributes not bearing the
    name of a member of [Object.prototype]. *)
Definition mapAssociation (modelName : string) (overrides : value)
  (attr : string) (attributes : obj) : M obj :=
  associationFor <- lift (schema_modelClassFor modelName) ;;
  let association := associationFor attr in
  let isBelongsTo :=
    match association with
    | Some a => instanceofBelongsTo a
    | None => false
    end in
  assert isBelongsTo AssociationError (notBelongsToMessage attr modelName) ;;
  let isSelfReferentialBelongsTo :=
    match association with
    | Some a => instanceofBelongsTo a
                && String.eqb (Association_modelName a) modelName
    | None => false
    end in
  assert (negb isSelfReferentialBelongsTo) AssociationError
         (selfReferentialMessage attr modelName) ;;
  let factoryAssociation := get attributes attr in
  let foreignKey := camelize attr ++ "Id" in
  override <- lift (getProp overrides attr) ;;
  attributes <-
    (if negb (truthy override) then
       target <- lift (match association with
                       | Some a => Ok (Association_modelName a)
                       | None => Throw (mkError TypeError
                           "Cannot read property 'modelName' of undefined")
                       end) ;;
       traitsAndOverrides <- lift (getProp factoryAssociation "traitsAndOverrides") ;;
       args <- lift (spread traitsAndOverrides) ;;
       related <- create target args ;;
       id <- lift (getProp related "id") ;;
       ret (Obj.set foreignKey id attributes)
     else ret attributes) ;;
  ret (Obj.delete attr attributes).

(** [Object.keys(attributes).filter(...)]: the keys that hold a
    placeholder when the call starts. *)
Definition associationKeys (attributes : obj) : list string :=
  filter (fun attr => isAssociation (get attributes attr))
         (Obj.keys attributes).

Fixpoint mapAssociations (modelName : string) (overrides : value)
  (keys : list string) (attributes : obj) : M obj :=
  match keys with
  | [] => ret attributes
  | attr :: rest =>
      attributes <- mapAssociation modelName overrides attr attributes ;;
      mapAssociations modelName overrides rest attributes
  end.

(** [_mapAssociationsFromAttributes(modelName, attributes, overrides = {})];
    the result is the rewritten [attributes]. *)
Definition _mapAssociationsFromAttributes (modelName : string)
  (attributes : obj) (overrides : value) : M obj :=
  let overrides :=
    match overrides with
    | VUndefined => VObj []
    | _ => overrides
    end in
  mapAssociations modelName overrides (associationKeys attributes) attributes.

(** [build(type, ...traitsAndOverrides)]. *)
Definition build_body (type : string) (traitsAndOverrides : list value)
  : M value :=
  let traits := traitArgs traitsAndOverrides in
  let overrides := _find _isPlainObject traitsAndOverrides in
  let camelizedType := camelize type in
  advanceSequence camelizedType ;;
  match factoryFor type with
  | Some (Registered OriginalFactory) =>
      let OriginalFactory := Factory_extend OriginalFactory [] in
      let attrs := attrs OriginalFactory in
      _validateTraits traits OriginalFactory type ;;
      mergedExtensions <- lift (_mergeExtensions attrs traits overrides) ;;
      attrs <- _mapAssociationsFromAttributes type attrs overrides ;;
      mergedExtensions <-
        _mapAssociationsFromAttributes type mergedExtensions VUndefined ;;
      let OriginalFactory :=
        mkFactory attrs (extractAfterCreateCallbacks OriginalFactory) in
      let factory := Factory_extend OriginalFactory mergedExtensions in
      fun s =>
        let sequence := sequenceOf camelizedType s in
        (s, Ok (Factory_build factory sequence))
  | Some (InheritedMember _) =>
      throw TypeError "OriginalFactory.extend is not a function"
  | None => ret overrides
  end.

(** [_modelOrFactoryExistsForTypeOrCollectionName],
    [_typeIsPluralForModel] and [_modelOrFactoryExistsForType], read
    for their truthiness. *)
Definition _modelOrFactoryExistsForTypeOrCollectionName
  (typeOrCollectionName : string) (s : Server) : bool :=
  let modelExists := schema_modelFor (camelize typeOrCollectionName) in
  let dbCollectionExists :=
    db_get (db s) (toInternalCollectionName typeOrCollectionName) in
  truthy modelExists || truthy dbCollectionExists.

Definition _typeIsPluralForModel (typeOrCollectionName : string)
  (s : Server) : bool :=
  let modelOrFactoryExists :=
    _modelOrFactoryExistsForTypeOrCollectionName typeOrCollectionName s in
  let isPlural :=
    String.eqb typeOrCollectionName (pluralize typeOrCollectionName) in
  let isUncountable :=
    String.eqb (singularize typeOrCollectionName)
               (pluralize typeOrCollectionName) in
  isPlural && negb isUncountable && modelOrFactoryExists.

Definition _modelOrFactoryExistsForType (type : string) (s : Server) : bool :=
  let modelExists := schema_modelFor (camelize type) in
  let dbCollectionExists := db_get (db s) (toInternalCollectionName type) in
  (truthy modelExists || truthy dbCollectionExists)
  && negb (_typeIsPluralForModel type s).

Definition noModelOrFactoryMessage (method type : string) : string :=
  "You called server." ++ method ++ "('" ++ type
  ++ "') but no model or factory was found. Make sure you're passing in the singularized version of the model or factory name.".

(** [create(type, ...options)]. *)
Definition create_body (type : string) (options : list value) : M value :=
  (fun s => assert (_modelOrFactoryExistsForType type s) ConfigurationError
                   (noModelOrFactoryMessage "create" type) s) ;;
  let traits := traitArgs options in
  let overrides := _find _isPlainObject options in
  let collectionFromCreateList :=
    _find (fun arg => truthy arg && isArray arg) options in
  attrs <- build_body type (map VStr traits ++ [overrides])%list ;;
  modelOrRecord <-
    (if truthy (schema_collection (toCollectionName type)) then
       onDb (schema_create (toCollectionName type) attrs)
     else
       collection <-
         (if truthy collectionFromCreateList then ret collectionFromCreateList
          else
            let collectionName := toInternalCollectionName type in
            fun s => (s, Ok (db_get (db s) collectionName))) ;;
       assert (truthy collection) ConfigurationError
         ("You called server.create('" ++ type
            ++ "') but no model or factory was found.") ;;
       onDb (collection_insert collection attrs)) ;;
  match factoryFor type with
  | Some (Registered OriginalFactory) =>
      forEach (fun afterCreate : Hook => afterCreate modelOrRecord)
              (extractAfterCreateCallbacks OriginalFactory traits)
  | Some (InheritedMember _) =>
      throw TypeError
        "OriginalFactory.extractAfterCreateCallbacks is not a function"
  | None => ret tt
  end ;;
  ret modelOrRecord.
End OpenRecursion.

(** [create] calls [build], which calls [create] for every related
    record: the recursion is bounded by [fuel], the depth of nested
    creations. *)
Fixpoint create (fuel : nat) (type : string) (options : list value)
  : M value :=
  match fuel with
  | O => outOfFuel
  | S fuel' => create_body (create fuel') type options
  end.

Definition build (fuel : nat) (type : string)
  (traitsAndOverrides : list value) : M value :=
  build_body (create fuel) type traitsAndOverrides.

(** The number of rounds of [for (let i = 0; i < amount; i++)]. *)
Definition rounds (amount : value) : nat :=
  match amount with
  | VNum q => Z.to_nat (Qceiling q)
  | _ => 0
  end.

Fixpoint repeatM {A} (n : nat) (m : M A) : M (list A) :=
  match n with
  | O => ret []
  | S n' => x <- m ;; rest <- repeatM n' m ;; ret (x :: rest)
  end.

Definition notAnIntegerMessage (amount : value) : string :=
  "second argument has to be an integer, you passed: " ++ typeOf amount.

(** [buildList(type, amount, ...traitsAndOverrides)]. *)
Definition buildList (fuel : nat) (type : string) (amount : value)
  (traitsAndOverrides : list value) : M (list value) :=
  assert (_isInteger amount) ValidationError (notAnIntegerMessage amount) ;;
  repeatM (rounds amount) (build fuel type traitsAndOverrides).

(** [createList(type, amount, ...traitsAndOverrides)]. *)
Definition createList (fuel : nat) (type : string) (amount : value)
  (traitsAndOverrides : list value) : M (list value) :=
  (fun s => assert (_modelOrFactoryExistsForType type s) ConfigurationError
                   (noModelOrFactoryMessage "createList" type) s) ;;
  assert (_isInteger amount) ValidationError (notAnIntegerMessage amount) ;;
  let collectionName := toInternalCollectionName type in
  collection <- (fun s => (s, Ok (db_get (db s) collectionName))) ;;
  repeatM (rounds amount)
          (create fuel type (traitsAndOverrides ++ [collection])%list).

End Engine.


(* ================================================================= *)
(** ** A small configuration to run the engine on

    An inflector that leaves names alone and pluralizes with an [s], a
    store of named collections that numbers its records from 1, and a
    schema with three models: a [post] belongs to an [author] and to a
    [parent] post and has many [comments], and an [author] belongs to a
    [favorite] post. *)
Module Demo.

#[global] Instance naming : Naming := {
  camelize := fun s => s;
  pluralize := fun s => s ++ "s";
  singularize := fun s => s;
  toCollectionName := fun s => s ++ "s";
  toInternalCollectionName := fun s => "_" ++ s ++ "s"
}.

Definition DemoDb : Type := list (string * list value).

Definition models : list string := ["post"; "author"; "comment"].

Definition isModel (name : string) : bool :=
  existsb (String.eqb name) models.

Definition isModelCollection (name : string) : bool :=
  existsb (fun m => String.eqb name (m ++ "s")) models.

Definition insertInto (name : string) (attrs : value) (d : DemoDb)
  : DemoDb * outcome value :=
  let records :=
    match Obj.lookup name d with
    | Some rs => rs
    | None => []
    end in
  let id := VNum (Z.of_nat (S (List.length records)) # 1) in
  let record :=
    VObj (Obj.set "id" id (match attrs with VObj props => props | _ => [] end)) in
  (Obj.set name (records ++ [record])%list d, Ok record).

Definition associationsOf (modelName attr : string) : option Association :=
  if String.eqb modelName "post" then
    if String.eqb attr "author" then Some (BelongsTo "author")
    else if String.eqb attr "parent" then Some (BelongsTo "post")
    else if String.eqb attr "comments" then Some (HasMany "comment")
    else None
  else if String.eqb modelName "author" then
    if String.eqb attr "favorite" then Some (BelongsTo "post") else None
  else None.

#[global] Instance backend : Backend := {
  Db := DemoDb;
  db_get := fun d name =>
    match Obj.lookup name d with
    | Some _ => VInstance "DbCollection" [("name", VStr name)]
    | None => VUndefined
    end;
  collection_insert := fun collection attrs d =>
    match collection with
    | VInstance _ props => insertInto (stringOf (get props "name")) attrs d
    | _ => (d, Throw (mkError TypeError "collection.insert is not a function"))
    end;
  schema_modelFor := fun name =>
    if isModel name then VInstance "Model" [] else VUndefined;
  schema_collection := fun name =>
    if isModelCollection name then VInstance "Collection" [] else VUndefined;
  schema_create := insertInto;
  schema_modelClassFor := fun modelName =>
    if isModel modelName then Ok (associationsOf modelName)
    else Throw (mkError ConfigurationError ("Model not registered: " ++ modelName))
}.

Definition noHooks : list string -> list (@Hook backend) := fun _ => [].

(** Factories: an [author] with a generated name, a [post] whose author
    is a placeholder, and a [comment] with two traits; [selfFactories] has
    a [post] whose parent, another post, is a placeholder. *)
Definition authorFactory : Factory :=
  mkFactory [("name", VFun (fun i =>
               match i with
               | Some (Count n) => VNum (n # 1)
               | _ => VNaN
               end))] noHooks.

Definition postFactory : Factory :=
  mkFactory [("title", VStr "Lorem"); ("author", association [])] noHooks.

Definition commentFactory : Factory :=
  mkFactory [("a", VNum 1);
             ("X", trait [("a", VNum 2); ("b", VNum 2)]);
             ("Y", trait [("b", VNum 3)])] noHooks.

Definition factories : option (list (string * Factory)) :=
  Some [("author", authorFactory); ("post", postFactory);
        ("comment", commentFactory)].

Definition selfFactories : option (list (string * Factory)) :=
  Some [("post", mkFactory [("parent", association [])] noHooks)].

(** Two factories that refer to each other: a [post] numbered by its
    sequence whose author is built with the trait [withFavorite], which
    gives the author a favorite post whose own author is overridden. *)
Definition nestedFactories : option (list (string * Factory)) :=
  Some [("post",
         mkFactory [("n", VFun (fun i =>
                       match i with
                       | Some (Count n) => VNum (n # 1)
                       | _ => VNaN
                       end));
                    ("author", association [VStr "withFavorite"])] noHooks);
        ("author",
         mkFactory [("withFavorite",
                     trait [("favorite",
                             association [VObj [("author", VNum 7)]])])]
                   noHooks)].

Definition emptyDb : DemoDb := [].

Definition fresh : Server := mkServer (emptyDb : Db) None.

End Demo.

(* ================================================================= *)
(** ** Notions used to state the properties *)

Section Notions.
Context {naming : Naming} {backend : Backend}.

(** No numeric counter decreases from [s] to [s']. *)
Definition counters_le (s s' : Server) : Prop :=
  forall k n, sequenceOf k s = Some (Count n) ->
              exists m, sequenceOf k s' = Some (Count m) /\ (n <= m)%Z.

Definition monotone {A} (m : M A) : Prop :=
  forall s, counters_le s (fst (m s)).

(** A well-formed object has each key once. *)
Definition wf (o : obj) : Prop := NoDup (Obj.keys o).

(** A decision procedure for it. *)
Fixpoint distinct (l : list string) : bool :=
  match l with
  | [] => true
  | x :: rest => negb (existsb (String.eqb x) rest) && distinct rest
  end.

(** The precedence rule in the specification's words: of the layers,
    given from lowest to highest, the highest one that has the attribute
    decides its value. *)
Definition highestPrecedence (k : string) (layers : list obj) : option value :=
  fold_left (fun acc layer =>
               match Obj.lookup k layer with
               | Some v => Some v
               | None => acc
               end) layers None.

(** The creation of the related record and the write of its identity
    under the foreign key, followed by the removal of the placeholder:
    what one step does when nothing suppresses it. *)
Definition createRelated (create_rec : string -> list value -> M value)
  (target : string) (args : list value)
  (attr : string) (attributes : obj) : M obj :=
  bind (create_rec target args) (fun related =>
  bind (lift (getProp related "id")) (fun id =>
  ret (Obj.delete attr (Obj.set (camelize attr ++ "Id") id attributes)))).

End Notions.

(* ================================================================= *)
(** ** Loading factories *)

Section Loading.
Context {naming : Naming} {backend : Backend}.

(** [this.db.createCollection(name)], a method of the store. *)
Variable db_createCollection : string -> Db -> Db * outcome unit.

(** lodash [_assign] on a map of factories. *)
Definition assignFactories (target source : list (string * Factory))
  : list (string * Factory) :=
  fold_left (fun acc kv => Obj.set (fst kv) (snd kv) acc) source target.

(** [Object.keys(factoryMap).forEach((type) => { ... createCollection ... })]. *)
Fixpoint createCollections (types : list string) (d : Db) : Db * outcome unit :=
  match types with
  | [] => (d, Ok tt)
  | type :: rest =>
      let collectionName := toCollectionName type in
      match db_createCollection collectionName d with
      | (d', Ok _) => createCollections rest d'
      | (d', Throw e) => (d', Throw e)
      | (d', OutOfFuel) => (d', OutOfFuel)
      end
  end.

(** [loadFactories(factoryMap = {})], on [this._factoryMap] and [this.db]:
    the new [_factoryMap], the store and the outcome. *)
Definition loadFactories (factoryMap : option (list (string * Factory)))
  (_factoryMap : option (list (string * Factory))) (d : Db)
  : option (list (string * Factory)) * Db * outcome unit :=
  let factoryMap :=
    match factoryMap with
    | Some m => m
    | None => []
    end in
  let currentFactoryMap :=
    match _factoryMap with
    | Some m => m
    | None => []
    end in
  let _factoryMap := Some (assignFactories currentFactoryMap factoryMap) in
  let (d', o) := createCollections (Obj.keys factoryMap) d in
  (_factoryMap, d', o).

End Loading.

(* ================================================================= *)
(** ** Resource routes *)

(** What [resource] throws: a string of its own, or the runtime's
    TypeError; a route verb may throw anything. *)
Inductive Thrown : Type :=
| ThrownString (s : string)
| ThrownTypeError
| ThrownError (e : Error).

Section Routes.
Context {naming : Naming}.

(** The state the route verbs work on, and [this[method](...args)] for the
    verbs [get], [post], [put], [patch] and [del], which are defined
    outside the methods modelled here: [None] is a normal return. *)
Variable Router : Type.
Variable verb : string -> list string -> Router -> Router * option Thrown.

Definition RouteM : Type := Router -> Router * option Thrown.

Fixpoint forEachRoute {A} (f : A -> RouteM) (l : list A) : RouteM :=
  fun r =>
    match l with
    | [] => (r, None)
    | x :: rest =>
        match f x r with
        | (r', None) => forEachRoute f rest r'
        | (r', Some t) => (r', Some t)
        end
    end.

(** [Object.keys(actionsMethodsAndsPathsMappings)]. *)
Definition allActions : list string :=
  ["index"; "show"; "create"; "update"; "delete"].

(** [actionsMethodsAndsPathsMappings[action]]: the methods and the path. *)
Definition actionsMethodsAndsPathsMappings (path action : string)
  : option (list string * string) :=
  if String.eqb action "index" then Some (["get"], path)
  else if String.eqb action "show" then Some (["get"], path ++ "/:id")
  else if String.eqb action "create" then Some (["post"], path)
  else if String.eqb action "update" then Some (["put"; "patch"], path ++ "/:id")
  else if String.eqb action "delete" then Some (["del"], path ++ "/:id")
  else None.

(** [except.indexOf(action) === -1]. *)
Definition notExcepted (except : list string) (action : string) : bool :=
  negb (existsb (String.eqb action) except).

Definition nonEmpty {A} (l : list A) : bool :=
  match l with
  | [] => false
  | _ :: _ => true
  end.

(** [resource(resourceName, { only, except, path } = {})]; an option left
    out is [None].  An action that is no key of the mappings makes the
    read of its [methods] a TypeError. *)
Definition resource (resourceName : string) (only except : option (list string))
  (path : option string) : RouteM :=
  let resourceName := pluralize resourceName in
  let path :=
    match path with
    | Some p => if String.eqb p "" then "/" ++ resourceName else p
    | None => "/" ++ resourceName
    end in
  let only := match only with Some l => l | None => [] end in
  let except := match except with Some l => l | None => [] end in
  if nonEmpty only && nonEmpty except then
    fun r => (r, Some (ThrownString "cannot use both :only and :except options"))
  else
    let actions :=
      if nonEmpty only then only
      else if nonEmpty except then filter (notExcepted except) allActions
      else allActions in
    forEachRoute
      (fun action =>
         match actionsMethodsAndsPathsMappings path action with
         | Some (methods, methodPath) =>
             forEachRoute
               (fun method =>
                  if String.eqb path resourceName
                  then verb method [methodPath]
                  else verb method [methodPath; resourceName])
               methods
         | None => fun r => (r, Some ThrownTypeError)
         end)
      actions.

End Routes.

(* ================================================================= *)
(** ** The steps of [create] *)

Section CreateSteps.
Context {naming : Naming} {backend : Backend}.

(** The middle of [create]: the built attributes go to the schema's
    collection for the type, else to an array found among the options,
    else to the store's internal collection for the type. *)
Definition insertRecord (type : string) (options : list value)
  (attrs : value) : M value :=
  if truthy (schema_collection (toCollectionName type)) then
    onDb (schema_create (toCollectionName type) attrs)
  else
    bind (if truthy (_find (fun arg => truthy arg && isArray arg) options)
          then ret (_find (fun arg => truthy arg && isArray arg) options)
          else fun s => (s, Ok (db_get (db s) (toInternalCollectionName type))))
         (fun collection =>
            bind (assert (truthy collection) ConfigurationError
                    ("You called server.create('" ++ type
                       ++ "') but no model or factory was found."))
                 (fun _ => onDb (collection_insert collection attrs))).

(** The end of [create]: the callbacks of the registered factory for the
    trait names among the options, each called with the stored record. *)
Definition runAfterCreate (_factoryMap : option (list (string * Factory)))
  (type : string) (options : list value) (modelOrRecord : value) : M unit :=
  match factoryFor _factoryMap type with
  | Some (Registered OriginalFactory) =>
      forEach (fun afterCreate : Hook => afterCreate modelOrRecord)
              (extractAfterCreateCallbacks OriginalFactory (traitArgs options))
  | Some (InheritedMember _) =>
      throw TypeError
        "OriginalFactory.extractAfterCreateCallbacks is not a function"
  | None => ret tt
  end.

End CreateSteps.

(* ================================================================= *)
(** ** More of the small configuration *)

Module Sample.

(** A [createCollection] for the small store: a missing collection is
    added empty. *)
Definition createCollection (name : string) (d : Demo.DemoDb)
  : Demo.DemoDb * outcome unit :=
  match Obj.lookup name d with
  | Some _ => (d, Ok tt)
  | None => (Obj.set name [] d, Ok tt)
  end.

(** A server whose store has the internal collection of a type [ghost]
    that has neither model nor factory. *)
Definition withGhosts : @Server Demo.backend :=
  mkServer ([("_ghosts", [])] : @Db Demo.backend) None.

(** An inflector that camelizes the dasherized [blog-post]. *)
Definition dashNaming : Naming := {|
  camelize := fun s => if String.eqb s "blog-post" then "blogPost" else s;
  pluralize := fun s => s ++ "s";
  singularize := fun s => s;
  toCollectionName := fun s => s ++ "s";
  toInternalCollectionName := fun s => "_" ++ s ++ "s"
|}.

(** Route verbs that record their calls. *)
Definition Calls : Type := list (string * list string).

Definition record (method : string) (args : list string) (calls : Calls)
  : Calls * option Thrown :=
  ((calls ++ [(method, args)])%list, None).

End Sample.

(* ================================================================= *)
(** ** Facts about objects *)

Section ObjFacts.
Variable A : Type.
Implicit Types (o : list (string * A)) (k : string) (v : A).

Lemma lookup_set_same k v o :
  Obj.lookup k (Obj.set k v o) = Some v.
Proof.
  induction o as [|[k' v'] rest IH]; simpl.
  - now rewrite String.eqb_refl.
  - destruct (String.eqb k k') eqn:E; simpl; rewrite E; auto.
Qed.

Lemma lookup_set_other k k' v o :
  k' <> k -> Obj.lookup k' (Obj.set k v o) = Obj.lookup k' o.
Proof.
  intros Hne.
  induction o as [|[k0 v0] rest IH]; simpl.
  - destruct (String.eqb k' k) eqn:E; auto.
    apply String.eqb_eq in E. contradiction.
  - destruct (String.eqb k k0) eqn:E; simpl.
    + apply String.eqb_eq in E. subst k0.
      destruct (String.eqb k' k) eqn:E'; auto.
      apply String.eqb_eq in E'. contradiction.
    + now rewrite IH.
Qed.

Lemma lookup_delete_same k o :
  Obj.lookup k (Obj.delete k o) = None.
Proof.
  induction o as [|[k' v'] rest IH]; simpl; auto.
  destruct (String.eqb k k') eqn:E; simpl; auto.
  now rewrite E.
Qed.

Lemma lookup_delete_other k k' o :
  k' <> k -> Obj.lookup k' (Obj.delete k o) = Obj.lookup k' o.
Proof.
  intros Hne.
  induction o as [|[k0 v0] rest IH]; simpl; auto.
  destruct (String.eqb k k0) eqn:E; simpl.
  - apply String.eqb_eq in E. subst k0.
    destruct (String.eqb k' k) eqn:E'; auto.
    apply String.eqb_eq in E'. contradiction.
  - now rewrite IH.
Qed.
End ObjFacts.

(** Writing a source over a target: a key of the source gets the source's
    last value for it, any other key keeps the target's. *)
Lemma lookup_assignProps (source target : obj) (k : string) :
  Obj.lookup k (assignProps target source) =
  match Obj.lookup k (rev source) with
  | Some v => Some v
  | None => Obj.lookup k target
  end.
Proof.
  unfold assignProps.
  revert target.
  induction source as [|[k0 v0] rest IH]; intros target; simpl; auto.
  rewrite IH.
  assert (Happ : forall (l1 l2 : obj),
             Obj.lookup k (l1 ++ l2)%list =
             match Obj.lookup k l1 with
             | Some v => Some v
             | None => Obj.lookup k l2
             end).
  { induction l1 as [|[k1 v1] l1 IH1]; intros l2; simpl; auto.
    destruct (String.eqb k k1); auto. }
  rewrite Happ. simpl.
  destruct (Obj.lookup k (rev rest)); auto.
  destruct (String.eqb k k0) eqn:E.
  - apply String.eqb_eq in E. subst k0. apply lookup_set_same.
  - apply lookup_set_other. intros ->. now rewrite String.eqb_refl in E.
Qed.

(* ================================================================= *)
(** ** Properties of the factory methods *)

Section Properties.
Context {naming : Naming} {backend : Backend}.
Variable _factoryMap : option (list (string * Factory)).

Abbreviation factoryFor := (factoryFor _factoryMap).
Abbreviation build := (build _factoryMap).
Abbreviation create := (create _factoryMap).
Abbreviation createList := (createList _factoryMap).
Abbreviation build_body := (build_body _factoryMap).
Abbreviation create_body := (create_body _factoryMap).

(* --------------------------------------------------------------- *)
(** *** Running a computation step by step *)

Lemma bind_ok {A B} (m : M A) (f : A -> M B) s s' a :
  m s = (s', Ok a) -> bind m f s = f a s'.
Proof. intros H. unfold bind. now rewrite H. Qed.

Lemma bind_throw {A B} (m : M A) (f : A -> M B) s s' e :
  m s = (s', Throw e) -> bind m f s = (s', Throw e).
Proof. intros H. unfold bind. now rewrite H. Qed.

Lemma bind_outOfFuel {A B} (m : M A) (f : A -> M B) s s' :
  m s = (s', OutOfFuel) -> bind m f s = (s', OutOfFuel).
Proof. intros H. unfold bind. now rewrite H. Qed.

(* --------------------------------------------------------------- *)
(** *** Sequence counters *)

Lemma plusOne_exact (n : Z) :
  (- 2 ^ 53 <= n < 2 ^ 53)%Z -> plusOne n = (n + 1)%Z.
Proof.
  intros [Hlo Hhi]. unfold plusOne.
  apply Z.leb_le in Hlo. apply Z.ltb_lt in Hhi.
  now rewrite Hlo, Hhi.
Qed.


Lemma nextSequence_exact (n : Z) :
  (- 2 ^ 53 <= n < 2 ^ 53)%Z -> nextSequence (Some (Count n)) = Count (n + 1).
Proof.
  intros H. unfold nextSequence. rewrite plusOne_exact by assumption.
  destruct (n + 1 =? 0)%Z eqn:E; auto.
  apply Z.eqb_eq in E. now rewrite E.
Qed.


Lemma not_inherited_not_proto (k : string) :
  inheritedMember k = false -> k <> "__proto__".
Proof. intros H ->. discriminate H. Qed.

Lemma sequenceOf_None_not_inherited (k : string) (s : Server) :
  sequenceOf k s = None -> inheritedMember k = false.
Proof.
  unfold sequenceOf, readSequence.
  destruct (Obj.lookup k (sequencesOf s)); [discriminate | ].
  destruct (inheritedMember k); [discriminate | reflexivity].
Qed.

Lemma sequenceOf_own (k : string) (c : Sequence) (s : Server) :
  sequenceOf k s = Some c -> (forall member, c <> Inherited member) ->
  Obj.lookup k (sequencesOf s) = Some c.
Proof.
  unfold sequenceOf, readSequence. intros H Hc.
  destruct (Obj.lookup k (sequencesOf s)) as [c'|]; [exact H | ].
  destruct (inheritedMember k); [ | discriminate ].
  injection H as <-. exfalso. now apply (Hc k).
Qed.

Lemma sequenceOf_advance_read (k : string) (s : Server) :
  Obj.lookup k (sequencesOf s) <> None \/ k <> "__proto__" ->
  sequenceOf k (advance k s) = Some (nextSequence (sequenceOf k s)).
Proof.
  intros Hk. unfold sequenceOf, advance.
  cbn [sequencesOf factorySequences]. unfold writeSequence.
  destruct (Obj.lookup k (sequencesOf s)) as [c|] eqn:Hown.
  - unfold readSequence at 1. now rewrite lookup_set_same.
  - destruct (String.eqb k "__proto__") eqn:E.
    + apply String.eqb_eq in E. destruct Hk as [Hk | Hk]; contradiction.
    + unfold readSequence at 1. now rewrite lookup_set_same.
Qed.

Lemma sequenceOf_advance_same (k : string) (s : Server) :
  k <> "__proto__" ->
  sequenceOf k (advance k s) = Some (nextSequence (sequenceOf k s)).
Proof. intros Hk. apply sequenceOf_advance_read. now right. Qed.

(** An assignment to [__proto__] is lost: without an own property of
    that name, that counter reads the same before and after. *)
Lemma sequenceOf_advance_proto (s : Server) :
  Obj.lookup "__proto__" (sequencesOf s) = None ->
  sequenceOf "__proto__" (advance "__proto__" s) = sequenceOf "__proto__" s.
Proof.
  intros Hown. unfold sequenceOf, advance.
  cbn [sequencesOf factorySequences]. unfold writeSequence.
  now rewrite Hown.
Qed.


(** The first advance of a counter gives 0, and a numeric counter below
    [2^53] moves up by one. *)
Lemma sequenceOf_advance_first (k : string) (s : Server) :
  sequenceOf k s = None -> sequenceOf k (advance k s) = Some (Count 0).
Proof.
  intros H.
  rewrite sequenceOf_advance_same, H; [reflexivity | ].
  apply not_inherited_not_proto. eapply sequenceOf_None_not_inherited, H.
Qed.

Lemma sequenceOf_advance_number (k : string) (n : Z) (s : Server) :
  sequenceOf k s = Some (Count n) ->
  sequenceOf k (advance k s) = Some (nextSequence (Some (Count n))).
Proof.
  intros H. rewrite sequenceOf_advance_read, H; [reflexivity | ].
  left. erewrite sequenceOf_own by (eassumption || discriminate).
  discriminate.
Qed.

Lemma sequenceOf_advance_next (k : string) (n : Z) (s : Server) :
  sequenceOf k s = Some (Count n) -> (- 2 ^ 53 <= n < 2 ^ 53)%Z ->
  sequenceOf k (advance k s) = Some (Count (n + 1)).
Proof.
  intros H Hn.
  now rewrite (sequenceOf_advance_number _ _ H), nextSequence_exact.
Qed.

Lemma db_advance (k : string) (s : Server) : db (advance k s) = db s.
Proof. reflexivity. Qed.

Lemma build_without_factory (fuel : nat) (type : string)
  (args : list value) (s : Server) :
  factoryFor type = None ->
  build fuel type args s =
  (advance (camelize type) s, Ok (_find _isPlainObject args)).
Proof.
  intros Hnone. unfold build, build_body.
  rewrite Hnone. reflexivity.
Qed.

Lemma counters_le_refl s : counters_le s s.
Proof. intros k n H. exists n. split; [assumption | lia]. Qed.

Lemma counters_le_trans s1 s2 s3 :
  counters_le s1 s2 -> counters_le s2 s3 -> counters_le s1 s3.
Proof.
  intros H12 H23 k n H.
  destruct (H12 k n H) as (m & Hm & Hle).
  destruct (H23 k m Hm) as (p & Hp & Hle').
  exists p. split; [assumption | lia].
Qed.


Lemma monotone_ret {A} (a : A) : monotone (ret a).
Proof. intros s. apply counters_le_refl. Qed.





Lemma monotone_bind {A B} (m : M A) (f : A -> M B) :
  monotone m -> (forall a, monotone (f a)) -> monotone (bind m f).
Proof.
  intros Hm Hf s. unfold bind.
  specialize (Hm s).
  destruct (m s) as [s' [a | e | ]]; simpl in *; auto.
  eapply counters_le_trans; [exact Hm | apply Hf].
Qed.


Lemma monotone_repeatM {A} (n : nat) (m : M A) :
  monotone m -> monotone (repeatM n m).
Proof.
  intros Hm. induction n as [|n IH]; simpl.
  - apply monotone_ret.
  - apply monotone_bind; [assumption | intros x].
    apply monotone_bind; [assumption | intros rest]. apply monotone_ret.
Qed.


Section MonotoneBuild.
Variable create_rec : string -> list value -> M value.
Hypothesis create_rec_monotone :
  forall type options, monotone (create_rec type options).





End MonotoneBuild.

Lemma iter_advance_count (k : string) (c : Z) (n : nat) (s : Server) :
  sequenceOf k s = Some (Count c) ->
  (- 2 ^ 53 <= c)%Z -> (c + Z.of_nat n <= 2 ^ 53)%Z ->
  sequenceOf k (Nat.iter n (advance k) s) = Some (Count (c + Z.of_nat n)).
Proof.
  intros Hs Hlo. induction n as [|n IH]; intros Hhi.
  - simpl. rewrite Hs. do 2 f_equal. lia.
  - change (Nat.iter (S n) (advance k) s)
      with (advance k (Nat.iter n (advance k) s)).
    erewrite sequenceOf_advance_next; [ | apply IH; lia | lia ].
    do 2 f_equal. lia.
Qed.

Lemma iter_advance_first (k : string) (n : nat) (s : Server) :
  sequenceOf k s = None -> (Z.of_nat n <= 2 ^ 53)%Z ->
  sequenceOf k (Nat.iter (S n) (advance k) s) = Some (Count (Z.of_nat n)).
Proof.
  intros Hs Hn.
  rewrite Nat.iter_succ_r.
  rewrite (@iter_advance_count k 0 n (advance k s)).
  - reflexivity.
  - now apply sequenceOf_advance_first.
  - lia.
  - lia.
Qed.

(** At [2^53] the counter no longer moves. *)
Lemma iter_advance_limit (k : string) (n : nat) (s : Server) :
  sequenceOf k s = Some (Count (2 ^ 53)) ->
  sequenceOf k (Nat.iter n (advance k) s) = Some (Count (2 ^ 53)).
Proof.
  intros Hs. induction n as [|n IH]; [exact Hs | ].
  change (Nat.iter (S n) (advance k) s)
    with (advance k (Nat.iter n (advance k) s)).
  rewrite (sequenceOf_advance_number _ _ IH). reflexivity.
Qed.

Lemma builds_without_factory (fuel : nat) (type : string) (args : list value) :
  factoryFor type = None ->
  forall n s,
    repeatM n (build fuel type args) s
    = (Nat.iter n (advance (camelize type)) s,
       Ok (repeat (_find _isPlainObject args) n)).
Proof.
  intros Hnone. induction n as [|n IH]; intros s; [reflexivity | ].
  simpl repeatM.
  erewrite bind_ok by (now apply build_without_factory).
  erewrite bind_ok by apply IH.
  unfold ret. f_equal.
  clear. induction n as [|n IHn]; [reflexivity | ].
  simpl in *. now rewrite IHn.
Qed.


(* --------------------------------------------------------------- *)
(** *** [build] without a factory *)

Lemma find_plain_after_strings (traits : list string) (rest : list value) :
  _find _isPlainObject (map VStr traits ++ rest)%list =
  _find _isPlainObject rest.
Proof.
  unfold _find. induction traits as [|t ts IH]; simpl; auto.
Qed.

(** [build] when the factory map only yields an inherited member for the
    type: the counter is advanced, then [OriginalFactory.extend] is not a
    function. *)
Lemma build_inherited_member (fuel : nat) (type member : string)
  (args : list value) (s : Server) :
  factoryFor type = Some (InheritedMember member) ->
  build fuel type args s =
  (advance (camelize type) s,
   Throw (mkError TypeError "OriginalFactory.extend is not a function")).
Proof.
  intros Hmember. unfold build, build_body.
  rewrite Hmember. reflexivity.
Qed.

(** When [factoryFor] finds nothing: the factory map is still [undefined],
    or it has no factory under the camelized name and that name is not
    one every plain object inherits. *)
Lemma factoryFor_None (type : string) :
  factoryFor type = None <->
  (_factoryMap = None \/
   exists factoryMap,
     _factoryMap = Some factoryMap /\
     Obj.lookup (camelize type) factoryMap = None /\
     inheritedMember (camelize type) = false).
Proof.
  unfold factoryFor. split.
  - destruct _factoryMap as [factoryMap|]; [ | now left].
    destruct (Obj.lookup (camelize type) factoryMap) eqn:E; [discriminate | ].
    destruct (inheritedMember (camelize type)) eqn:E'; [discriminate | ].
    intros _. right. exists factoryMap. auto.
  - intros [-> | (factoryMap & -> & -> & ->)]; reflexivity.
Qed.

(** C5 (amended).  When [factoryFor(type)] finds nothing (no factory is
    registered under the camelized name and, if a factory map is loaded,
    that name is not the name of a member of [Object.prototype]),
    [build(type, ...traits, m)] returns the override map [m] itself; the
    store is left as it was (nothing is inserted, nothing is resolved),
    only the sequence counter of the type moves. *)
Theorem build_without_factory_returns_overrides (fuel : nat)
  (type : string) (traits : list string) (m : obj) (s : Server) :
  factoryFor type = None ->
  build fuel type (map VStr traits ++ [VObj m])%list s =
    (advance (camelize type) s, Ok (VObj m))
  /\ db (fst (build fuel type (map VStr traits ++ [VObj m])%list s)) = db s.
Proof.
  intros Hnone.
  rewrite build_without_factory by assumption.
  rewrite find_plain_after_strings. split; reflexivity.
Qed.

Lemma find_none_plain (args : list value) :
  forallb (fun arg => negb (_isPlainObject arg)) args = true ->
  forall rest, _find _isPlainObject (args ++ rest)%list =
               _find _isPlainObject rest.
Proof.
  unfold _find. induction args as [|a args IH]; simpl; auto.
  intros H rest. apply andb_true_iff in H. destruct H as [Ha Hargs].
  destruct (_isPlainObject a); [discriminate | now apply IH].
Qed.

(** C10 (amended).  When [factoryFor(type)] finds nothing: if no
    argument is a plain object, [build] returns [undefined] (not an empty
    map); whatever the arguments, it leaves the sequence counter of the
    type at 0 when its read found nothing, and one above a numeric counter
    below [2^53]; when several plain objects are passed, the first one is
    the result. *)
Theorem build_without_factory_no_overrides (fuel : nat) (type : string)
  (s : Server) :
  factoryFor type = None ->
  let k := camelize type in
  (forall args,
      forallb (fun arg => negb (_isPlainObject arg)) args = true ->
      build fuel type args s = (advance k s, Ok VUndefined))
  /\ (sequenceOf k s = None ->
      forall args,
        sequenceOf k (fst (build fuel type args s)) = Some (Count 0))
  /\ (forall n,
         sequenceOf k s = Some (Count n) -> (- 2 ^ 53 <= n < 2 ^ 53)%Z ->
         forall args,
           sequenceOf k (fst (build fuel type args s)) = Some (Count (n + 1)))
  /\ (forall before m after,
         forallb (fun arg => negb (_isPlainObject arg)) before = true ->
         build fuel type (before ++ VObj m :: after)%list s =
         (advance k s, Ok (VObj m))).
Proof.
  intros Hnone k. repeat split.
  - intros args Hargs.
    rewrite build_without_factory by assumption.
    rewrite <- (app_nil_r args), find_none_plain by assumption.
    reflexivity.
  - intros Hfirst args.
    rewrite build_without_factory by assumption.
    now apply sequenceOf_advance_first.
  - intros n Hn Hrange args.
    rewrite build_without_factory by assumption.
    now apply sequenceOf_advance_next.
  - intros before m after Hbefore.
    rewrite build_without_factory by assumption.
    now rewrite find_none_plain.
Qed.

(* --------------------------------------------------------------- *)
(** *** Trait composition *)

Lemma distinct_wf (o : obj) : distinct (Obj.keys o) = true -> wf o.
Proof.
  unfold wf. induction (Obj.keys o) as [|x rest IH]; intros H; constructor.
  - apply andb_true_iff in H. destruct H as [H _].
    apply negb_true_iff in H. intros Hin.
    assert (existsb (String.eqb x) rest = true).
    { apply existsb_exists. exists x. split; [exact Hin | apply String.eqb_refl]. }
    congruence.
  - apply IH. simpl in H. apply andb_true_iff in H. tauto.
Qed.

Lemma lookup_app (k : string) (l1 l2 : obj) :
  Obj.lookup k (l1 ++ l2)%list =
  match Obj.lookup k l1 with
  | Some v => Some v
  | None => Obj.lookup k l2
  end.
Proof.
  induction l1 as [|[k1 v1] l1 IH]; simpl; auto.
  destruct (String.eqb k k1); auto.
Qed.

Lemma lookup_not_key (k : string) (o : obj) :
  ~ In k (Obj.keys o) -> Obj.lookup k o = None.
Proof.
  induction o as [|[k0 v0] o IH]; simpl; auto.
  intros Hnot. destruct (String.eqb k k0) eqn:E.
  - apply String.eqb_eq in E. subst. exfalso. apply Hnot. now left.
  - apply IH. intros Hin. apply Hnot. now right.
Qed.

Lemma lookup_rev_wf (k : string) (o : obj) :
  wf o -> Obj.lookup k (rev o) = Obj.lookup k o.
Proof.
  unfold wf. induction o as [|[k0 v0] o IH]; simpl; auto.
  intros Hnd. inversion Hnd as [|? ? Hnotin Hnd']; subst.
  rewrite lookup_app, IH by assumption. simpl.
  destruct (String.eqb k k0) eqn:E.
  - apply String.eqb_eq in E. subst.
    now rewrite lookup_not_key.
  - destruct (Obj.lookup k o); reflexivity.
Qed.

Lemma lookup_assign_wf (k : string) (target source : obj) :
  wf source ->
  Obj.lookup k (assignProps target source) =
  match Obj.lookup k source with
  | Some v => Some v
  | None => Obj.lookup k target
  end.
Proof.
  intros Hwf. now rewrite lookup_assignProps, lookup_rev_wf.
Qed.

Lemma lookup_fold_assign (k : string) (layers : list obj) :
  Forall wf layers ->
  forall target,
    Obj.lookup k (fold_left _assign (map VObj layers) target) =
    fold_left (fun acc layer =>
                 match Obj.lookup k layer with
                 | Some v => Some v
                 | None => acc
                 end) layers (Obj.lookup k target).
Proof.
  induction 1 as [|layer layers Hwf _ IH]; intros target; simpl; auto.
  rewrite IH. unfold _assign, ownProps. now rewrite lookup_assign_wf.
Qed.

Lemma keys_set (k : string) (v : value) (o : obj) :
  Obj.keys (Obj.set k v o) =
  if existsb (String.eqb k) (Obj.keys o) then Obj.keys o
  else (Obj.keys o ++ [k])%list.
Proof.
  induction o as [|[k0 v0] o IH]; simpl; auto.
  destruct (String.eqb k k0) eqn:E; simpl.
  - apply String.eqb_eq in E. now subst.
  - rewrite IH. destruct (existsb (String.eqb k) (Obj.keys o)); reflexivity.
Qed.

Lemma wf_set (k : string) (v : value) (o : obj) :
  wf o -> wf (Obj.set k v o).
Proof.
  unfold wf. intros Hwf. rewrite keys_set.
  destruct (existsb (String.eqb k) (Obj.keys o)) eqn:E; auto.
  assert (Hnot : ~ In k (Obj.keys o)).
  { intros Hin.
    assert (existsb (String.eqb k) (Obj.keys o) = true).
    { apply existsb_exists. exists k. split; [assumption | apply String.eqb_refl]. }
    congruence. }
  clear E. induction (Obj.keys o) as [|x xs IH]; simpl.
  - constructor; [intros [] | constructor].
  - inversion Hwf as [|? ? Hx Hxs]; subst. constructor.
    + rewrite in_app_iff. intros [Hin | [Heq | []]]; [contradiction | ].
      subst. apply Hnot. now left.
    + apply IH; [assumption | ]. intros Hin. apply Hnot. now right.
Qed.

Lemma wf_assignProps (target source : obj) :
  wf target -> wf (assignProps target source).
Proof.
  unfold assignProps. revert target.
  induction source as [|[k v] source IH]; intros target Hwf; simpl; auto.
  apply IH. now apply wf_set.
Qed.

Lemma wf_fold_assign (sources : list value) (target : obj) :
  wf target -> wf (fold_left _assign sources target).
Proof.
  revert target.
  induction sources as [|v sources IH]; intros target Hwf; simpl; auto.
  apply IH. now apply wf_assignProps.
Qed.

Lemma lookup_copy (k : string) (o : obj) :
  wf o -> Obj.lookup k (assignProps [] o) = Obj.lookup k o.
Proof.
  intros Hwf. rewrite lookup_assign_wf by assumption.
  destruct (Obj.lookup k o); reflexivity.
Qed.

Lemma highest_from (k : string) (layers : list obj) (init : option value) :
  fold_left (fun acc layer =>
               match Obj.lookup k layer with
               | Some v => Some v
               | None => acc
               end) layers init =
  match highestPrecedence k layers with
  | Some v => Some v
  | None => init
  end.
Proof.
  unfold highestPrecedence. revert init.
  induction layers as [|l ls IH]; intros init; simpl; auto.
  destruct (Obj.lookup k l) as [w|].
  - rewrite (IH (Some w)).
    match goal with
    | |- context [match ?x with Some _ => _ | None => Some w end] =>
        destruct x
    end; reflexivity.
  - apply IH.
Qed.

Lemma traitExtensions_declared (attrs : obj) (traits : list string)
  (exts : list obj) :
  Forall2 (fun t e => get attrs t = trait e) traits exts ->
  traitExtensions attrs traits = Ok (map VObj exts).
Proof.
  induction 1 as [|t e traits exts Ht _ IH]; simpl; auto.
  unfold readExtension. unfold get in Ht.
  destruct (Obj.lookup t attrs) as [v|]; [ | discriminate Ht ].
  rewrite Ht, IH. reflexivity.
Qed.

Lemma get_copy (o : obj) (k : string) :
  wf o -> get (assignProps [] o) k = get o k.
Proof. intros Hwf. unfold get. now rewrite lookup_copy. Qed.

(** C6.  Trait composition.  For a factory whose [traits] are declared
    with the extensions [exts], [_mergeExtensions] succeeds and, for every
    attribute, the merged extension holds the value of the highest layer
    among the trait extensions in the given order and the overrides; the
    attribute map of the extended factory holds the value of the highest
    layer among the base attributes, the trait extensions in the given
    order and the overrides.  With base [{a:1}], [X = {a:2,b:2}],
    [Y = {b:3}], traits [[X, Y]] and overrides [{a:9}] the record built is
    [{a:9, b:3}]. *)
Theorem trait_composition_precedence :
  (forall (F : Factory) (traits : list string) (exts : list obj)
          (overrides : value),
      wf (attrs F) -> Forall wf exts -> wf (propsOf overrides) ->
      overrides = VUndefined \/ _isPlainObject overrides = true ->
      Forall2 (fun t e => get (attrs F) t = trait e) traits exts ->
      exists merged,
        _mergeExtensions (attrs (Factory_extend F [])) traits overrides
          = Ok merged
        /\ (forall k, Obj.lookup k merged
                      = highestPrecedence k (exts ++ [propsOf overrides]))
        /\ (forall k,
               Obj.lookup k
                 (attrs (Factory_extend (Factory_extend F []) merged))
               = highestPrecedence k
                   (attrs F :: exts ++ [propsOf overrides])))
  /\ (forall callbacks sequence,
         let F := mkFactory [("a", VNum 1);
                             ("X", trait [("a", VNum 2); ("b", VNum 2)]);
                             ("Y", trait [("b", VNum 3)])] callbacks in
         exists merged,
           _mergeExtensions (attrs (Factory_extend F [])) ["X"; "Y"]
                            (VObj [("a", VNum 9)]) = Ok merged
           /\ merged = [("a", VNum 9); ("b", VNum 3)]
           /\ Factory_build (Factory_extend (Factory_extend F []) merged)
                            sequence
              = VObj [("a", VNum 9); ("b", VNum 3)]).
Proof.
  split.
  - intros F traits exts overrides HF Hexts Hov Hshape Hdecl.
    assert (Hor : orEmpty overrides = VObj (propsOf overrides)).
    { destruct Hshape as [-> | Hplain]; [reflexivity | ].
      destruct overrides; try discriminate. reflexivity. }
    assert (Hlayers : Forall wf (exts ++ [propsOf overrides])).
    { apply Forall_app. split; [assumption | now constructor]. }
    assert (Hcopy : attrs (Factory_extend F []) = assignProps [] (attrs F))
      by reflexivity.
    unfold _mergeExtensions.
    rewrite (@traitExtensions_declared _ traits exts).
    2:{ rewrite Hcopy. eapply Forall2_impl; [ | exact Hdecl ].
        intros t e Ht. cbv beta in Ht |- *. now rewrite get_copy. }
    rewrite Hor.
    replace (map VObj exts ++ [VObj (propsOf overrides)])%list
      with (map VObj (exts ++ [propsOf overrides])).
    2:{ now rewrite map_app. }
    eexists. split; [reflexivity | ]. split.
    + intros k. now rewrite lookup_fold_assign.
    + intros k.
      change (attrs (Factory_extend (Factory_extend F [])
                       (fold_left _assign
                          (map VObj (exts ++ [propsOf overrides])) [])))
        with (assignProps (assignProps [] (assignProps [] (attrs F)))
                (fold_left _assign
                   (map VObj (exts ++ [propsOf overrides])) [])).
      rewrite lookup_assign_wf by (apply wf_fold_assign; constructor).
      rewrite lookup_fold_assign by assumption.
      rewrite lookup_copy by (apply wf_assignProps; constructor).
      rewrite lookup_copy by assumption.
      change (Obj.lookup k []) with (@None value).
      fold (highestPrecedence k (exts ++ [propsOf overrides])).
      unfold highestPrecedence at 2. simpl.
      rewrite highest_from.
      destruct (highestPrecedence k (exts ++ [propsOf overrides]));
        [reflexivity | ].
      destruct (Obj.lookup k (attrs F)); reflexivity.
  - intros callbacks sequence F. eexists.
    split; [reflexivity | ]. split; reflexivity.
Qed.

(* --------------------------------------------------------------- *)
(** *** Unknown traits *)

Lemma validateTraits_unknown (traits : list string) (F : Factory)
  (type unknown : string) (s : Server) :
  find (fun t => negb (Factory_isTrait F t)) traits = Some unknown ->
  _validateTraits traits F type s =
  (s, Throw (mkError ConfigurationError (unknownTraitMessage unknown type))).
Proof.
  induction traits as [|t rest IH]; simpl; [discriminate | ].
  destruct (negb (Factory_isTrait F t)).
  - intros [= ->]. reflexivity.
  - exact IH.
Qed.


Lemma isTrait_copy (F : Factory) (t : string) :
  wf (attrs F) ->
  Factory_isTrait (Factory_extend F []) t = Factory_isTrait F t.
Proof.
  intros Hwf. unfold Factory_isTrait.
  change (attrs (Factory_extend F [])) with (assignProps [] (attrs F)).
  now rewrite get_copy.
Qed.

Lemma find_unknown_copy (F : Factory) (traits : list string) :
  wf (attrs F) ->
  find (fun t => negb (Factory_isTrait (Factory_extend F []) t)) traits =
  find (fun t => negb (Factory_isTrait F t)) traits.
Proof.
  intros Hwf. induction traits as [|t rest IH]; simpl; auto.
  now rewrite isTrait_copy, IH.
Qed.

Lemma build_unknown_trait (create_rec : string -> list value -> M value)
  (type : string) (F : Factory) (args : list value) (unknown : string)
  (s : Server) :
  factoryFor type = Some (Registered F) -> wf (attrs F) ->
  find (fun t => negb (Factory_isTrait F t)) (traitArgs args) = Some unknown ->
  build_body create_rec type args s =
  (advance (camelize type) s,
   Throw (mkError ConfigurationError (unknownTraitMessage unknown type))).
Proof.
  intros HF Hwf Hfind. unfold build_body. rewrite HF.
  unfold bind at 1, advanceSequence.
  apply bind_throw. apply validateTraits_unknown.
  now rewrite find_unknown_copy.
Qed.

Lemma traitArgs_are_strings (args : list value) :
  map VStr (traitArgs args) = filter isTraitArg args.
Proof.
  unfold traitArgs. induction args as [|a args IH]; simpl; auto.
  destruct (isTraitArg a) eqn:E; simpl; auto.
  rewrite IH. f_equal.
  destruct a; unfold isTraitArg in E; simpl in E; try discriminate;
    try (rewrite andb_false_r in E; discriminate).
  reflexivity.
Qed.

Lemma traitArgs_again (args : list value) (v : value) :
  isTraitArg v = false ->
  traitArgs (map VStr (traitArgs args) ++ [v]) = traitArgs args.
Proof.
  intros Hv. rewrite traitArgs_are_strings. unfold traitArgs.
  rewrite filter_app. simpl. rewrite Hv, app_nil_r.
  f_equal. induction args as [|a args IH]; simpl; auto.
  destruct (isTraitArg a) eqn:E; simpl; [ | exact IH ].
  now rewrite E, IH.
Qed.

Lemma find_plain_not_trait (args : list value) :
  isTraitArg (_find _isPlainObject args) = false.
Proof.
  unfold _find. destruct (find _isPlainObject args) as [v|] eqn:E; auto.
  apply find_some in E. destruct E as [_ E].
  destruct v; try discriminate. reflexivity.
Qed.



Section Sequences.
(** The [afterCreate] callbacks of the registered factories leave no
    counter lower than they found it. *)
Hypothesis callbacks_monotone :
  forall type F traits (afterCreate : Hook) record,
    factoryFor type = Some (Registered F) ->
    In afterCreate (extractAfterCreateCallbacks F traits) ->
    monotone (afterCreate record).


End Sequences.

(** C7.  Unknown traits.  When a factory is registered for the type and
    the trait names among the arguments include one that the factory does
    not declare as a trait, [build] throws the configuration error that
    names the first such trait and the type; [create] throws a
    configuration error too, the same one whenever its own check that a
    model or collection exists for the type passes.  In every case the
    store is the one the call started from: nothing was inserted. *)
Theorem unknown_trait_fails_before_insertion (fuel : nat) (type : string)
  (F : Factory) (args : list value) (t : string) (s : Server) :
  factoryFor type = Some (Registered F) -> wf (attrs F) ->
  In t (traitArgs args) -> Factory_isTrait F t = false ->
  exists unknown,
    In unknown (traitArgs args) /\ Factory_isTrait F unknown = false /\
    let e := mkError ConfigurationError
               ("'" ++ unknown ++ "' trait is not registered in '"
                    ++ type ++ "' factory") in
    build fuel type args s = (advance (camelize type) s, Throw e)
    /\ db (fst (build fuel type args s)) = db s
    /\ (_modelOrFactoryExistsForType type s = true ->
        create (S fuel) type args s = (advance (camelize type) s, Throw e))
    /\ (exists e', snd (create (S fuel) type args s) = Throw e'
                   /\ kind e' = ConfigurationError)
    /\ db (fst (create (S fuel) type args s)) = db s.
Proof.
  intros HF Hwf Hin Hnot.
  destruct (find (fun t => negb (Factory_isTrait F t)) (traitArgs args))
    as [unknown|] eqn:Hfind.
  2:{ exfalso. eapply find_none in Hfind; [ | exact Hin ].
      rewrite Hnot in Hfind. discriminate. }
  exists unknown.
  destruct (find_some _ _ Hfind) as [Hin' Hnot'].
  apply negb_true_iff in Hnot'.
  split; [assumption | ]. split; [assumption | ].
  intros e.
  assert (Hbuild : forall create_rec,
             build_body create_rec type args s
             = (advance (camelize type) s, Throw e)).
  { intros create_rec. now apply build_unknown_trait with (F := F). }
  assert (Hinner : forall create_rec,
             build_body create_rec type
               (map VStr (traitArgs args) ++ [_find _isPlainObject args]) s
             = (advance (camelize type) s, Throw e)).
  { intros create_rec. apply build_unknown_trait with (F := F); auto.
    now rewrite traitArgs_again by apply find_plain_not_trait. }
  assert (Hcreate : _modelOrFactoryExistsForType type s = true ->
             create (S fuel) type args s
             = (advance (camelize type) s, Throw e)).
  { intros Hexists.
    change (create (S fuel) type args)
      with (create_body (create fuel) type args).
    unfold create_body. unfold bind at 1. rewrite Hexists. simpl.
    apply bind_throw. apply Hinner. }
  assert (Hmissing : _modelOrFactoryExistsForType type s = false ->
             create (S fuel) type args s
             = (s, Throw (mkError ConfigurationError
                            (noModelOrFactoryMessage "create" type)))).
  { intros Hexists.
    change (create (S fuel) type args)
      with (create_body (create fuel) type args).
    unfold create_body. unfold bind at 1. now rewrite Hexists. }
  split; [apply Hbuild | ].
  split; [unfold build; now rewrite Hbuild | ].
  split; [exact Hcreate | ].
  destruct (_modelOrFactoryExistsForType type s) eqn:Hexists.
  - rewrite Hcreate by reflexivity. simpl.
    split; [ | reflexivity ]. eexists. split; reflexivity.
  - rewrite Hmissing by reflexivity. simpl.
    split; [ | reflexivity ]. eexists. split; reflexivity.
Qed.

(* --------------------------------------------------------------- *)
(** *** [createList] and its amount *)

Lemma rounds_not_positive (z : Z) :
  (z <= 0)%Z -> rounds (VNum (z # 1)) = 0%nat.
Proof.
  intros Hz. unfold rounds, Qceiling, Qfloor. simpl.
  rewrite Z.div_1_r. lia.
Qed.

Lemma isInteger_whole (z : Z) : _isInteger (VNum (z # 1)) = true.
Proof.
  unfold _isInteger, Qred. simpl Qnum. simpl Qden.
  destruct (Z.ggcd z 1) as [g [a b]] eqn:E.
  pose proof (Z.ggcd_correct_divisors z 1) as Hdiv.
  pose proof (Z.ggcd_gcd z 1) as Hgcd.
  rewrite E in Hdiv, Hgcd. simpl in Hdiv, Hgcd.
  rewrite Z.gcd_1_r in Hgcd. subst g.
  destruct Hdiv as [_ Hb]. simpl.
  assert (b = 1%Z) by lia. subst b. reflexivity.
Qed.


(* --------------------------------------------------------------- *)
(** *** Resolving relationship placeholders *)

Section Associations.
Variable create_rec : string -> list value -> M value.

Lemma mapAssociation_not_belongsTo modelName overrides attr attributes
  associationFor s :
  schema_modelClassFor modelName = Ok associationFor ->
  (associationFor attr = None
   \/ exists m, associationFor attr = Some (HasMany m)) ->
  mapAssociation create_rec modelName overrides attr attributes s =
  (s, Throw (mkError AssociationError (notBelongsToMessage attr modelName))).
Proof.
  intros Hmc Hassoc. unfold mapAssociation.
  erewrite bind_ok by (unfold lift; rewrite Hmc; reflexivity).
  apply bind_throw.
  destruct Hassoc as [-> | [m ->]]; reflexivity.
Qed.

Lemma mapAssociation_self_referential modelName overrides attr attributes
  associationFor s :
  schema_modelClassFor modelName = Ok associationFor ->
  associationFor attr = Some (BelongsTo modelName) ->
  mapAssociation create_rec modelName overrides attr attributes s =
  (s, Throw (mkError AssociationError
               (selfReferentialMessage attr modelName))).
Proof.
  intros Hmc Hassoc. unfold mapAssociation.
  erewrite bind_ok by (unfold lift; rewrite Hmc; reflexivity).
  rewrite Hassoc. simpl instanceofBelongsTo. simpl Association_modelName.
  erewrite bind_ok by reflexivity.
  apply bind_throw. now rewrite String.eqb_refl.
Qed.

Lemma mapAssociation_belongsTo modelName overrides attr attributes
  associationFor target override s :
  schema_modelClassFor modelName = Ok associationFor ->
  associationFor attr = Some (BelongsTo target) ->
  target <> modelName ->
  getProp overrides attr = Ok override ->
  mapAssociation create_rec modelName overrides attr attributes s =
  if truthy override then (s, Ok (Obj.delete attr attributes))
  else
    bind (lift (getProp (get attributes attr) "traitsAndOverrides"))
         (fun traitsAndOverrides =>
            bind (lift (spread traitsAndOverrides))
                 (fun args => createRelated create_rec target args attr attributes))
         s.
Proof.
  intros Hmc Hassoc Hne Hov. unfold mapAssociation.
  erewrite bind_ok by (unfold lift; rewrite Hmc; reflexivity).
  rewrite Hassoc. simpl instanceofBelongsTo. simpl Association_modelName.
  erewrite bind_ok by reflexivity.
  assert (Hdiff : String.eqb target modelName = false).
  { apply String.eqb_neq. exact Hne. }
  rewrite Hdiff. simpl andb. simpl negb.
  erewrite bind_ok by reflexivity.
  erewrite bind_ok by (unfold lift; rewrite Hov; reflexivity).
  destruct (truthy override); simpl negb; cbv iota.
  - erewrite bind_ok by reflexivity. reflexivity.
  - unfold createRelated.
    unfold bind, lift, ret.
    destruct (getProp (get attributes attr) "traitsAndOverrides")
      as [tao | e | ]; try reflexivity.
    destruct (spread tao) as [args | e | ]; try reflexivity.
    destruct (create_rec target args s) as [s1 [related | e | ]];
      try reflexivity.
    destruct (getProp related "id") as [id | e | ]; reflexivity.
Qed.

Lemma placeholder_arguments (traitsAndOverrides : list value) :
  getProp (association traitsAndOverrides) "traitsAndOverrides"
  = Ok (VArr traitsAndOverrides).
Proof. reflexivity. Qed.

End Associations.

Section AssociationClaims.
Variable create_rec : string -> list value -> M value.




End AssociationClaims.

Section Guards.
Variable create_rec : string -> list value -> M value.

Lemma bind_never_ok {A B} (m : M A) (f : A -> M B) s :
  (forall a, snd (m s) <> Ok a) -> forall b, snd (bind m f s) <> Ok b.
Proof.
  intros Hm b. unfold bind.
  destruct (m s) as [s' [a | e | ]]; simpl in *; try discriminate.
  exfalso. now apply (Hm a).
Qed.

(** A placeholder whose step always throws stops every pass that
    reaches it. *)
Lemma mapAssociations_blocked modelName overrides attr keys :
  (forall attributes s,
      exists e, mapAssociation create_rec modelName overrides attr
                               attributes s = (s, Throw e)) ->
  In attr keys ->
  forall attributes s a,
    snd (mapAssociations create_rec modelName overrides keys attributes s)
    <> Ok a.
Proof.
  intros Hthrow. induction keys as [|k rest IH]; intros Hin; [destruct Hin | ].
  intros attributes s a. simpl.
  destruct (string_dec k attr) as [-> | Hne].
  - apply bind_never_ok. intros a'.
    destruct (Hthrow attributes s) as [e ->]. discriminate.
  - destruct Hin as [-> | Hin]; [contradiction | ].
    unfold bind.
    destruct (mapAssociation create_rec modelName overrides k attributes s)
      as [s' [a' | e | ]]; simpl; try discriminate.
    now apply IH.
Qed.

Lemma build_blocked type F attr :
  (forall overrides attributes s,
      exists e, mapAssociation create_rec type overrides attr
                               attributes s = (s, Throw e)) ->
  factoryFor type = Some (Registered F) ->
  In attr (associationKeys (attrs (Factory_extend F []))) ->
  forall args s a, snd (build_body create_rec type args s) <> Ok a.
Proof.
  intros Hthrow HF Hin args s a. unfold build_body. rewrite HF.
  unfold bind at 1, advanceSequence.
  unfold bind at 1.
  destruct (_validateTraits _ _ _ _) as [s1 [[] | e | ]];
    simpl; try discriminate.
  unfold bind at 1, lift.
  destruct (_mergeExtensions _ _ _) as [merged | e | ];
    simpl; try discriminate.
  apply bind_never_ok. intros a'.
  unfold _mapAssociationsFromAttributes.
  apply mapAssociations_blocked with (attr := attr); auto.
Qed.

Lemma build_blocked_merged type F attr args merged :
  (forall overrides attributes s,
      exists e, mapAssociation create_rec type overrides attr
                               attributes s = (s, Throw e)) ->
  factoryFor type = Some (Registered F) ->
  _mergeExtensions (attrs (Factory_extend F [])) (traitArgs args)
                   (_find _isPlainObject args) = Ok merged ->
  In attr (associationKeys merged) ->
  forall s a, snd (build_body create_rec type args s) <> Ok a.
Proof.
  intros Hthrow HF Hmerge Hin s a. unfold build_body. rewrite HF.
  unfold bind at 1, advanceSequence.
  unfold bind at 1.
  destruct (_validateTraits _ _ _ _) as [s1 [[] | e | ]];
    try (simpl; discriminate).
  rewrite Hmerge. unfold bind at 1, lift.
  unfold bind at 1.
  destruct (_mapAssociationsFromAttributes _ _ _ _ _) as [s2 [attrs' | e | ]];
    try (simpl; discriminate).
  apply bind_never_ok. intros a'.
  unfold _mapAssociationsFromAttributes.
  apply mapAssociations_blocked with (attr := attr); auto.
Qed.

(** C3.  A placeholder on an attribute whose declared belongs-to target
    is the type being built.  Its step throws the association error
    about the self-referential relationship and leaves the server as it
    found it, whatever [create] would do and whatever the overrides:
    no related record is created.  A pass whose first placeholder it is
    throws that error at once; no pass over an attribute map that holds
    it, and no [build] whose factory attributes or merged extensions
    hold it, ever returns. *)
Theorem self_referential_placeholder_fails (modelName : string)
  (overrides : value) (attr : string) (attributes : obj)
  (associationFor : string -> option Association) (s : Server) :
  schema_modelClassFor modelName = Ok associationFor ->
  associationFor attr = Some (BelongsTo modelName) ->
  let e := mkError AssociationError
                   (selfReferentialMessage attr modelName) in
  mapAssociation create_rec modelName overrides attr attributes s
    = (s, Throw e)
  /\ (forall rest,
         associationKeys attributes = attr :: rest ->
         _mapAssociationsFromAttributes create_rec modelName attributes
                                        overrides s = (s, Throw e))
  /\ (In attr (associationKeys attributes) ->
      forall a,
        snd (_mapAssociationsFromAttributes create_rec modelName
                                            attributes overrides s)
        <> Ok a)
  /\ (forall F args a,
         factoryFor modelName = Some (Registered F) ->
         In attr (associationKeys (attrs (Factory_extend F []))) ->
         snd (build_body create_rec modelName args s) <> Ok a)
  /\ (forall F args merged a,
         factoryFor modelName = Some (Registered F) ->
         _mergeExtensions (attrs (Factory_extend F [])) (traitArgs args)
                          (_find _isPlainObject args) = Ok merged ->
         In attr (associationKeys merged) ->
         snd (build_body create_rec modelName args s) <> Ok a).
Proof.
  intros Hmc Hassoc e.
  assert (Hstep : forall overrides attributes s,
             mapAssociation create_rec modelName overrides attr attributes s
             = (s, Throw e)).
  { intros. eapply mapAssociation_self_referential; eassumption. }
  split; [apply Hstep | ]. split; [ | split; [ | split ] ].
  - intros rest Hkeys. unfold _mapAssociationsFromAttributes.
    rewrite Hkeys. simpl. apply bind_throw. apply Hstep.
  - intros Hin a. unfold _mapAssociationsFromAttributes.
    apply mapAssociations_blocked with (attr := attr); auto.
    intros. eexists. apply Hstep.
  - intros F args a HF Hin.
    apply build_blocked with (F := F) (attr := attr); auto.
    intros. eexists. apply Hstep.
  - intros F args merged a HF Hmerge Hin.
    apply build_blocked_merged with (F := F) (attr := attr) (merged := merged);
      auto.
    intros. eexists. apply Hstep.
Qed.

(** C8.  A placeholder on an attribute for which the model class of the
    type declares no association, or one that is not a belongs-to (a
    has-many).  Its step throws an association error whose message
    contains the attribute and the type, and leaves the server as it
    found it: no record is created for the placeholder.  A pass whose
    first placeholder it is throws that error at once; no pass over an
    attribute map that holds it, and no [build] whose factory attributes
    or merged extensions hold it, ever returns. *)
Theorem placeholder_requires_belongsTo (modelName : string)
  (overrides : value) (attr : string) (attributes : obj)
  (associationFor : string -> option Association) (s : Server) :
  schema_modelClassFor modelName = Ok associationFor ->
  (associationFor attr = None
   \/ exists m, associationFor attr = Some (HasMany m)) ->
  exists e,
    kind e = AssociationError
    /\ (exists before between after,
           message e = before ++ attr ++ between ++ modelName ++ after)
    /\ mapAssociation create_rec modelName overrides attr attributes s
       = (s, Throw e)
    /\ (forall rest,
           associationKeys attributes = attr :: rest ->
           _mapAssociationsFromAttributes create_rec modelName attributes
                                          overrides s = (s, Throw e))
    /\ (In attr (associationKeys attributes) ->
        forall a,
          snd (_mapAssociationsFromAttributes create_rec modelName
                                              attributes overrides s)
          <> Ok a)
    /\ (forall F args a,
           factoryFor modelName = Some (Registered F) ->
           In attr (associationKeys (attrs (Factory_extend F []))) ->
           snd (build_body create_rec modelName args s) <> Ok a)
    /\ (forall F args merged a,
           factoryFor modelName = Some (Registered F) ->
           _mergeExtensions (attrs (Factory_extend F [])) (traitArgs args)
                            (_find _isPlainObject args) = Ok merged ->
           In attr (associationKeys merged) ->
           snd (build_body create_rec modelName args s) <> Ok a).
Proof.
  intros Hmc Hassoc.
  exists (mkError AssociationError (notBelongsToMessage attr modelName)).
  assert (Hstep : forall overrides attributes s,
             mapAssociation create_rec modelName overrides attr attributes s
             = (s, Throw (mkError AssociationError
                            (notBelongsToMessage attr modelName)))).
  { intros. eapply mapAssociation_not_belongsTo; eassumption. }
  split; [reflexivity | ]. split.
  { unfold notBelongsToMessage. cbv [message].
    do 3 eexists. reflexivity. }
  split; [apply Hstep | ]. split; [ | split; [ | split ] ].
  - intros rest Hkeys. unfold _mapAssociationsFromAttributes.
    rewrite Hkeys. simpl. apply bind_throw. apply Hstep.
  - intros Hin a. unfold _mapAssociationsFromAttributes.
    apply mapAssociations_blocked with (attr := attr); auto.
    intros. eexists. apply Hstep.
  - intros F args a HF Hin.
    apply build_blocked with (F := F) (attr := attr); auto.
    intros. eexists. apply Hstep.
  - intros F args merged a HF Hmerge Hin.
    apply build_blocked_merged with (F := F) (attr := attr) (merged := merged);
      auto.
    intros. eexists. apply Hstep.
Qed.


End Guards.

End Properties.

(* ================================================================= *)
(** ** The properties on the small configuration *)


(** A record is built with the counter as it stands after its placeholders
    are resolved.  With two factories that build each other, the first
    [build] of a post advances the counter to 0, the nested build of the
    favorite post advances it to 1, and both posts are numbered 1. *)
Lemma nested_build_reads_the_later_counter :
  build Demo.nestedFactories 3 "post" [] Demo.fresh
  = (mkServer
       ([("posts",
          [VObj [("n", VNum 1); ("author", VNum 7); ("id", VNum 1)]]);
         ("authors", [VObj [("favoriteId", VNum 1); ("id", VNum 1)]])]
        : Db)
       (Some [("post", Count 1); ("author", Count 0)]),
     Ok (VObj [("n", VNum 1); ("authorId", VNum 1)])).
Proof. reflexivity. Qed.


(** Once factories are loaded, [build('constructor', m)] does not return
    [m], although no factory is registered under that name: the factory
    map yields the inherited [constructor], which has no [extend]. *)
Lemma build_inherited_name_counterexample :
  (forall factoryMap,
      Demo.factories = Some factoryMap ->
      Obj.lookup "constructor" factoryMap = None)
  /\ build Demo.factories 0 "constructor" [VObj [("a", VNum 1)]] Demo.fresh
     = (advance "constructor" Demo.fresh,
        Throw (mkError TypeError "OriginalFactory.extend is not a function")).
Proof.
  split; [ | vm_compute; reflexivity ].
  intros factoryMap [= <-]. reflexivity.
Qed.

(** Once factories are loaded, [build('toString', 'x')] does not return
    [undefined], although no factory is registered under that name and no
    argument is a plain object: it throws.  And a [build] that returns
    [undefined] does not advance a counter that has reached [2^53]. *)
Lemma build_inherited_name_no_overrides_counterexample :
  (forall factoryMap,
      Demo.factories = Some factoryMap ->
      Obj.lookup "toString" factoryMap = None)
  /\ forallb (fun arg => negb (_isPlainObject arg)) [VStr "x"] = true
  /\ build Demo.factories 0 "toString" [VStr "x"] Demo.fresh
     = (advance "toString" Demo.fresh,
        Throw (mkError TypeError "OriginalFactory.extend is not a function"))
  /\ snd (build Demo.factories 0 "toString" [VStr "x"] Demo.fresh)
     <> Ok VUndefined
  /\ (let s := mkServer Demo.emptyDb (Some [("ghost", Count (2 ^ 53))]) in
      build Demo.factories 0 "ghost" [VStr "x"] s = (s, Ok VUndefined)).
Proof.
  split; [intros factoryMap [= <-]; reflexivity | ].
  split; [reflexivity | ].
  split; [vm_compute; reflexivity | ].
  split; [vm_compute; discriminate | ].
  vm_compute. reflexivity.
Qed.

Lemma build_without_factory_returns_overrides_witness :
  factoryFor Demo.factories "ghost" = None
  /\ build Demo.factories 0 "ghost" [VStr "x"; VObj [("a", VNum 1)]] Demo.fresh
     = (advance "ghost" Demo.fresh, Ok (VObj [("a", VNum 1)])).
Proof.
  split; [reflexivity | ].
  exact (proj1 (@build_without_factory_returns_overrides
                  Demo.naming Demo.backend Demo.factories 0 "ghost" ["x"]
                  [("a", VNum 1)] Demo.fresh eq_refl)).
Defined.

Lemma build_without_factory_no_overrides_witness :
  factoryFor Demo.factories "ghost" = None
  /\ sequenceOf "ghost"
       (fst (build Demo.factories 0 "ghost" [VStr "x"] Demo.fresh))
     = Some (Count 0)
  /\ build Demo.factories 0 "ghost" [VStr "x"] Demo.fresh
     = (advance "ghost" Demo.fresh, Ok VUndefined)
  /\ build Demo.factories 0 "ghost"
       [VStr "x"; VObj [("a", VNum 1)]; VObj [("b", VNum 2)]] Demo.fresh
     = (advance "ghost" Demo.fresh, Ok (VObj [("a", VNum 1)])).
Proof.
  split; [reflexivity | ].
  destruct (@build_without_factory_no_overrides
              Demo.naming Demo.backend Demo.factories 0 "ghost" Demo.fresh
              eq_refl) as (Hnone & Hzero & _ & Hfirst).
  split; [ | split ].
  - apply (Hzero eq_refl [VStr "x"]).
  - apply Hnone. reflexivity.
  - apply (Hfirst [VStr "x"] [("a", VNum 1)] [VObj [("b", VNum 2)]]).
    reflexivity.
Defined.

Lemma unknown_trait_fails_before_insertion_witness :
  factoryFor Demo.factories "comment" = Some (Registered Demo.commentFactory)
  /\ wf (attrs Demo.commentFactory)
  /\ In "Z" (traitArgs [VStr "X"; VStr "Z"])
  /\ Factory_isTrait Demo.commentFactory "Z" = false
  /\ exists unknown,
       In unknown (traitArgs [VStr "X"; VStr "Z"])
       /\ build Demo.factories 3 "comment" [VStr "X"; VStr "Z"] Demo.fresh
          = (advance "comment" Demo.fresh,
             Throw (mkError ConfigurationError
                      ("'" ++ unknown
                           ++ "' trait is not registered in 'comment' factory")))
       /\ db (fst (create Demo.factories 4 "comment" [VStr "X"; VStr "Z"]
                          Demo.fresh)) = db Demo.fresh.
Proof.
  assert (Hwf : wf (attrs Demo.commentFactory)).
  { apply distinct_wf. reflexivity. }
  assert (Hin : In "Z" (traitArgs [VStr "X"; VStr "Z"])).
  { simpl. right. left. reflexivity. }
  split; [reflexivity | ]. split; [exact Hwf | ].
  split; [exact Hin | ]. split; [reflexivity | ].
  destruct (@unknown_trait_fails_before_insertion
              Demo.naming Demo.backend Demo.factories 3 "comment"
              Demo.commentFactory [VStr "X"; VStr "Z"] "Z" Demo.fresh
              eq_refl Hwf Hin eq_refl)
    as (unknown & Hu & _ & Hbuild & _ & _ & _ & Hdb).
  exists unknown. split; [exact Hu | ]. split; [exact Hbuild | exact Hdb].
Defined.



Lemma trait_composition_precedence_witness :
  wf (attrs Demo.commentFactory)
  /\ Forall wf [[("a", VNum 2); ("b", VNum 2)]; [("b", VNum 3)]]
  /\ Forall2 (fun t e => get (attrs Demo.commentFactory) t = trait e)
             ["X"; "Y"] [[("a", VNum 2); ("b", VNum 2)]; [("b", VNum 3)]]
  /\ exists merged,
       _mergeExtensions (attrs (Factory_extend Demo.commentFactory []))
                        ["X"; "Y"] (VObj [("a", VNum 9)]) = Ok merged
       /\ Obj.lookup "a" merged = Some (VNum 9)
       /\ Obj.lookup "b" merged = Some (VNum 3)
       /\ Obj.lookup "a"
            (attrs (Factory_extend (Factory_extend Demo.commentFactory [])
                                   merged)) = Some (VNum 9).
Proof.
  assert (Hbase : wf (attrs Demo.commentFactory)).
  { apply distinct_wf. reflexivity. }
  assert (Hexts : Forall wf [[("a", VNum 2); ("b", VNum 2)]; [("b", VNum 3)]]).
  { constructor; [apply distinct_wf; reflexivity | ].
    constructor; [apply distinct_wf; reflexivity | constructor]. }
  assert (Hdecl : Forall2
                    (fun t e => get (attrs Demo.commentFactory) t = trait e)
                    ["X"; "Y"]
                    [[("a", VNum 2); ("b", VNum 2)]; [("b", VNum 3)]]).
  { repeat constructor. }
  split; [exact Hbase | ]. split; [exact Hexts | ]. split; [exact Hdecl | ].
  destruct (proj1 (@trait_composition_precedence Demo.backend)
              Demo.commentFactory ["X"; "Y"]
              [[("a", VNum 2); ("b", VNum 2)]; [("b", VNum 3)]]
              (VObj [("a", VNum 9)]) Hbase Hexts
              (distinct_wf [("a", VNum 9)] eq_refl) (or_intror eq_refl) Hdecl)
    as (merged & Hmerge & Hlayers & Hattrs).
  exists merged. split; [exact Hmerge | ].
  split; [ | split ].
  - rewrite Hlayers. reflexivity.
  - rewrite Hlayers. reflexivity.
  - rewrite Hattrs. reflexivity.
Defined.



Lemma self_referential_placeholder_fails_witness :
  schema_modelClassFor "post" = Ok (Demo.associationsOf "post")
  /\ Demo.associationsOf "post" "parent" = Some (BelongsTo "post")
  /\ mapAssociation (create Demo.selfFactories 3) "post" (VObj []) "parent"
                    [("parent", association [])] Demo.fresh
     = (Demo.fresh,
        Throw (mkError AssociationError
                 (selfReferentialMessage "parent" "post")))
  /\ forall a,
       snd (build_body Demo.selfFactories (create Demo.selfFactories 3)
                       "post" [] Demo.fresh) <> Ok a.
Proof.
  split; [reflexivity | ]. split; [reflexivity | ].
  destruct (@self_referential_placeholder_fails
              Demo.naming Demo.backend Demo.selfFactories
              (create Demo.selfFactories 3) "post" (VObj []) "parent"
              [("parent", association [])] (Demo.associationsOf "post")
              Demo.fresh eq_refl eq_refl)
    as (Hstep & _ & _ & Hbuild & _).
  split; [exact Hstep | ].
  intros a.
  apply (Hbuild (mkFactory [("parent", association [])] Demo.noHooks) [] a).
  - reflexivity.
  - simpl. left. reflexivity.
Defined.

Lemma placeholder_requires_belongsTo_witness :
  schema_modelClassFor "post" = Ok (Demo.associationsOf "post")
  /\ (Demo.associationsOf "post" "comments" = None
      \/ exists m, Demo.associationsOf "post" "comments" = Some (HasMany m))
  /\ exists e,
       kind e = AssociationError
       /\ mapAssociation (create Demo.factories 3) "post" (VObj []) "comments"
                         [("comments", association [])] Demo.fresh
          = (Demo.fresh, Throw e).
Proof.
  assert (Hmany : Demo.associationsOf "post" "comments" = None
                  \/ exists m, Demo.associationsOf "post" "comments"
                               = Some (HasMany m)).
  { right. exists "comment". reflexivity. }
  split; [reflexivity | ]. split; [exact Hmany | ].
  destruct (@placeholder_requires_belongsTo
              Demo.naming Demo.backend Demo.factories
              (create Demo.factories 3) "post" (VObj []) "comments"
              [("comments", association [])] (Demo.associationsOf "post")
              Demo.fresh eq_refl Hmany)
    as (e & Hkind & _ & Hstep & _).
  exists e. split; [exact Hkind | exact Hstep].
Defined.


(* ================================================================= *)
(** ** Further properties: lists of records, [create], loading, routes *)

Section Coverage.
Context {naming : Naming} {backend : Backend}.
Variable _factoryMap : option (list (string * Factory)).

Abbreviation factoryFor := (factoryFor _factoryMap).
Abbreviation build := (build _factoryMap).
Abbreviation buildList := (buildList _factoryMap).
Abbreviation create := (create _factoryMap).
Abbreviation createList := (createList _factoryMap).
Abbreviation build_body := (build_body _factoryMap).
Abbreviation create_body := (create_body _factoryMap).

(* --------------------------------------------------------------- *)
(** *** Loops *)

Lemma repeatM_length {A} (m : M A) (n : nat) :
  forall s s' l, repeatM n m s = (s', Ok l) -> List.length l = n.
Proof.
  induction n as [|n IH]; intros s s' l; simpl.
  - intros [= _ <-]. reflexivity.
  - unfold bind at 1. destruct (m s) as [s1 [a | e | ]]; try discriminate.
    unfold bind at 1.
    destruct (repeatM n m s1) as [s2 [rest | e | ]] eqn:Hrest; try discriminate.
    intros [= _ <-]. simpl. f_equal. eapply IH. exact Hrest.
Qed.

Lemma repeatM_first_failure {A} (m : M A) (k : nat) :
  forall n s sk s' l e,
    repeatM k m s = (sk, Ok l) -> m sk = (s', Throw e) -> (k < n)%nat ->
    repeatM n m s = (s', Throw e).
Proof.
  induction k as [|k IH]; intros n s sk s' l e Hprefix Hfail Hlt.
  - simpl in Hprefix. injection Hprefix as <- _.
    destruct n as [|n]; [lia | ]. simpl. now apply bind_throw.
  - destruct n as [|n]; [lia | ]. simpl in Hprefix |- *.
    unfold bind at 1 in Hprefix. unfold bind at 1.
    destruct (m s) as [s1 [a | e1 | ]]; try discriminate.
    unfold bind at 1 in Hprefix.
    destruct (repeatM k m s1) as [s2 [rest | e2 | ]] eqn:Hrest;
      try discriminate.
    injection Hprefix as <- _.
    apply bind_throw. eapply IH; [exact Hrest | exact Hfail | lia].
Qed.

Lemma rounds_whole (z : Z) : rounds (VNum (z # 1)) = Z.to_nat z.
Proof.
  unfold rounds, Qceiling, Qfloor. simpl.
  rewrite Z.div_1_r. f_equal. lia.
Qed.

Lemma buildList_checked (fuel : nat) (type : string) (amount : value)
  (args : list value) (s : Server) :
  buildList fuel type amount args s =
  if _isInteger amount
  then repeatM (rounds amount) (build fuel type args) s
  else (s, Throw (mkError ValidationError (notAnIntegerMessage amount))).
Proof.
  unfold buildList, bind, assert.
  destruct (_isInteger amount); reflexivity.
Qed.

Lemma createList_checked (fuel : nat) (type : string) (amount : value)
  (args : list value) (s : Server) :
  createList fuel type amount args s =
  if _modelOrFactoryExistsForType type s then
    if _isInteger amount
    then repeatM (rounds amount)
           (create fuel type
              (args ++ [db_get (db s) (toInternalCollectionName type)])%list) s
    else (s, Throw (mkError ValidationError (notAnIntegerMessage amount)))
  else (s, Throw (mkError ConfigurationError
                    (noModelOrFactoryMessage "createList" type))).
Proof.
  unfold createList, bind, assert.
  destruct (_modelOrFactoryExistsForType type s); [ | reflexivity ].
  destruct (_isInteger amount); reflexivity.
Qed.

(* --------------------------------------------------------------- *)
(** *** [buildList] *)

(** X1.  [buildList] checks its amount and nothing else: for every type,
    registered or not, an amount that is not an integer makes it throw the
    validation error with the server untouched (no counter moves), and an
    integer amount that is zero or negative makes it return the empty list
    with the server untouched. *)
Theorem buildList_requires_only_an_integer (fuel : nat) (type : string)
  (args : list value) (s : Server) :
  (forall amount,
      _isInteger amount = false ->
      buildList fuel type amount args s =
      (s, Throw (mkError ValidationError
                   ("second argument has to be an integer, you passed: "
                      ++ typeOf amount))))
  /\ (forall z, (z <= 0)%Z ->
                buildList fuel type (VNum (z # 1)) args s = (s, Ok [])).
Proof.
  split.
  - intros amount Hint. rewrite buildList_checked, Hint. reflexivity.
  - intros z Hz. rewrite buildList_checked, isInteger_whole.
    now rewrite rounds_not_positive.
Qed.

(** X2.  When [buildList] returns, its amount is an integer and the list
    has one record per round: [amount] records for a whole number
    [amount >= 0], none for a negative one. *)
Theorem buildList_length (fuel : nat) (type : string) (amount : value)
  (args : list value) (s s' : Server) (l : list value) :
  buildList fuel type amount args s = (s', Ok l) ->
  _isInteger amount = true
  /\ List.length l = rounds amount
  /\ (forall z, amount = VNum (z # 1) -> List.length l = Z.to_nat z).
Proof.
  rewrite buildList_checked.
  destruct (_isInteger amount); [ | discriminate ].
  intros H. apply repeatM_length in H.
  split; [reflexivity | ]. split; [exact H | ].
  intros z ->. now rewrite H, rounds_whole.
Qed.

(** X3.  When [factoryFor] finds nothing for the type,
    [buildList(type, n, ...)] returns [n] times the first plain-object
    argument ([undefined] when there is none) and advances the counter of
    the type [n] times; the store is left as it was.  Starting where the
    read of the counter finds nothing, [n > 0] rounds leave it at [n - 1];
    starting from a numeric counter [c], they leave it at [c + n]; both
    as long as [2^53] is not passed. *)
Theorem buildList_without_factory (fuel : nat) (type : string) (n : nat)
  (args : list value) (s : Server) :
  factoryFor type = None ->
  let k := camelize type in
  buildList fuel type (VNum (Z.of_nat n # 1)) args s =
  (Nat.iter n (advance k) s, Ok (repeat (_find _isPlainObject args) n))
  /\ db (Nat.iter n (advance k) s) = db s
  /\ (sequenceOf k s = None -> n <> 0%nat -> (Z.of_nat n <= 2 ^ 53 + 1)%Z ->
      sequenceOf k (Nat.iter n (advance k) s)
      = Some (Count (Z.of_nat n - 1)))
  /\ (forall c,
         sequenceOf k s = Some (Count c) ->
         (- 2 ^ 53 <= c)%Z -> (c + Z.of_nat n <= 2 ^ 53)%Z ->
         sequenceOf k (Nat.iter n (advance k) s)
         = Some (Count (c + Z.of_nat n))).
Proof.
  intros Hnone k. split; [ | split; [ | split ] ].
  - rewrite buildList_checked, isInteger_whole, rounds_whole, Nat2Z.id.
    now apply builds_without_factory.
  - induction n as [|n IH]; [reflexivity | ]. simpl. exact IH.
  - intros Hfirst Hn Hle. destruct n as [|n]; [contradiction | ].
    rewrite iter_advance_first by (assumption || lia).
    do 2 f_equal. lia.
  - intros c Hc Hlo Hhi. now apply iter_advance_count.
Qed.

(* --------------------------------------------------------------- *)
(** *** [createList] *)

(** X4.  [createList] looks for the type before it looks at the amount:
    when no model or collection exists for the type (or the type is a
    plural), it throws the configuration error of [createList] whatever
    the amount, an amount that is no integer included, and leaves the
    server untouched. *)
Theorem createList_checks_the_type_first (fuel : nat) (type : string)
  (amount : value) (args : list value) (s : Server) :
  _modelOrFactoryExistsForType type s = false ->
  createList fuel type amount args s =
  (s, Throw (mkError ConfigurationError
               ("You called server.createList('" ++ type
                  ++ "') but no model or factory was found. Make sure you're passing in the singularized version of the model or factory name."))).
Proof.
  intros Hmissing. rewrite createList_checked, Hmissing. reflexivity.
Qed.

(** X5.  When [createList] returns, a model or collection exists for the
    type, the amount is an integer and the list has one record per round:
    [amount] records for a whole number [amount >= 0]. *)
Theorem createList_length (fuel : nat) (type : string) (amount : value)
  (args : list value) (s s' : Server) (l : list value) :
  createList fuel type amount args s = (s', Ok l) ->
  _modelOrFactoryExistsForType type s = true
  /\ _isInteger amount = true
  /\ List.length l = rounds amount
  /\ (forall z, amount = VNum (z # 1) -> List.length l = Z.to_nat z).
Proof.
  rewrite createList_checked.
  destruct (_modelOrFactoryExistsForType type s); [ | discriminate ].
  destruct (_isInteger amount); [ | discriminate ].
  intros H. apply repeatM_length in H.
  split; [reflexivity | ]. split; [reflexivity | ]. split; [exact H | ].
  intros z ->. now rewrite H, rounds_whole.
Qed.

(** X6.  [createList] stops at the first record whose creation throws and
    undoes nothing: if the first [k] creations succeed and the next one
    throws, with [k] less than the amount, [createList] throws that error
    and leaves the server as the failed creation left it, the [k] records
    created before included. *)
Theorem createList_stops_at_the_first_failure (fuel : nat) (type : string)
  (n k : nat) (args : list value) (s sk s' : Server) (l : list value)
  (e : Error) :
  _modelOrFactoryExistsForType type s = true ->
  (k < n)%nat ->
  let options :=
    (args ++ [db_get (db s) (toInternalCollectionName type)])%list in
  repeatM k (create fuel type options) s = (sk, Ok l) ->
  create fuel type options sk = (s', Throw e) ->
  createList fuel type (VNum (Z.of_nat n # 1)) args s = (s', Throw e).
Proof.
  intros Hexists Hlt options Hprefix Hfail.
  rewrite createList_checked, Hexists, isInteger_whole, rounds_whole, Nat2Z.id.
  eapply repeatM_first_failure; eassumption.
Qed.

(* --------------------------------------------------------------- *)
(** *** Which types [create] accepts *)

Lemma modelOrFactoryExists_unfold (type : string) (s : Server) :
  _modelOrFactoryExistsForType type s =
  _modelOrFactoryExistsForTypeOrCollectionName type s
  && negb (String.eqb type (pluralize type)
           && negb (String.eqb (singularize type) (pluralize type))
           && _modelOrFactoryExistsForTypeOrCollectionName type s).
Proof. reflexivity. Qed.

(** X7.  [_modelOrFactoryExistsForType] accepts a type exactly when a
    model or a store collection exists for it and its name is not a
    countable plural: the name differs from its plural, or its singular
    and plural coincide. *)
Theorem modelOrFactoryExists_characterised (type : string) (s : Server) :
  _modelOrFactoryExistsForType type s = true <->
  (_modelOrFactoryExistsForTypeOrCollectionName type s = true
   /\ (type <> pluralize type \/ singularize type = pluralize type)).
Proof.
  rewrite modelOrFactoryExists_unfold.
  destruct (_modelOrFactoryExistsForTypeOrCollectionName type s); simpl.
  2:{ split; [discriminate | intros [H _]; discriminate]. }
  rewrite andb_true_r.
  destruct (String.eqb type (pluralize type)) eqn:Eplural; simpl.
  - apply String.eqb_eq in Eplural.
    destruct (String.eqb (singularize type) (pluralize type)) eqn:Eunc; simpl.
    + apply String.eqb_eq in Eunc. split; auto.
    + apply String.eqb_neq in Eunc. split; [discriminate | ].
      intros [_ [H | H]]; contradiction.
  - apply String.eqb_neq in Eplural. split; auto.
Qed.

Lemma create_unknown_type (fuel : nat) (type : string)
  (options : list value) (s : Server) :
  _modelOrFactoryExistsForType type s = false ->
  create (S fuel) type options s =
  (s, Throw (mkError ConfigurationError
               (noModelOrFactoryMessage "create" type))).
Proof.
  intros Hmissing.
  change (create (S fuel) type options)
    with (create_body (create fuel) type options).
  unfold create_body. unfold bind at 1. now rewrite Hmissing.
Qed.

(** X8.  [create] refuses a type before it does anything: when no model
    or collection exists for the type, and whenever the type is a
    countable plural (equal to its plural, with another singular), it
    throws the configuration error that asks for the singularized name;
    the server is untouched, the sequence counter of the type included. *)
Theorem create_rejects_unknown_and_plural_types (fuel : nat)
  (type : string) (options : list value) (s : Server) :
  _modelOrFactoryExistsForType type s = false
  \/ (type = pluralize type /\ singularize type <> pluralize type) ->
  create (S fuel) type options s =
  (s, Throw (mkError ConfigurationError
               ("You called server.create('" ++ type
                  ++ "') but no model or factory was found. Make sure you're passing in the singularized version of the model or factory name.")))
  /\ sequenceOf (camelize type) (fst (create (S fuel) type options s))
     = sequenceOf (camelize type) s.
Proof.
  intros H.
  assert (Hmissing : _modelOrFactoryExistsForType type s = false).
  { destruct H as [H | [Hplural Hcount]]; [exact H | ].
    destruct (_modelOrFactoryExistsForType type s) eqn:E; [ | reflexivity ].
    apply modelOrFactoryExists_characterised in E.
    destruct E as [_ [E | E]]; contradiction. }
  rewrite create_unknown_type by exact Hmissing.
  split; reflexivity.
Qed.

(* --------------------------------------------------------------- *)
(** *** Where [create] puts a record *)

Lemma bind_ret_tail {A} (m : M A) (s : Server) :
  bind m (fun a => bind (ret tt) (fun _ => ret a)) s = m s.
Proof.
  unfold bind, ret. destruct (m s) as [s' [a | e | ]]; reflexivity.
Qed.

Lemma find_plain_single (v : value) :
  v = VUndefined \/ _isPlainObject v = true ->
  _find _isPlainObject [v] = v.
Proof.
  intros [-> | H]; [reflexivity | ].
  unfold _find. simpl. now rewrite H.
Qed.

Lemma find_plain_shape (args : list value) :
  _find _isPlainObject args = VUndefined
  \/ _isPlainObject (_find _isPlainObject args) = true.
Proof.
  unfold _find. destruct (find _isPlainObject args) as [v|] eqn:E.
  - right. now apply find_some in E.
  - now left.
Qed.

(** [create] for a type without a factory, once its check has passed:
    the counter is advanced and the overrides go to the store. *)
Lemma create_without_factory_steps (fuel : nat) (type : string)
  (options : list value) (s : Server) :
  factoryFor type = None ->
  _modelOrFactoryExistsForType type s = true ->
  create (S fuel) type options s =
  bind (if truthy (schema_collection (toCollectionName type)) then
          onDb (schema_create (toCollectionName type)
                              (_find _isPlainObject options))
        else
          bind (if truthy (_find (fun arg => truthy arg && isArray arg) options)
                then ret (_find (fun arg => truthy arg && isArray arg) options)
                else fun s0 =>
                       (s0, Ok (db_get (db s0) (toInternalCollectionName type))))
               (fun collection =>
                  bind (assert (truthy collection) ConfigurationError
                          ("You called server.create('" ++ type
                             ++ "') but no model or factory was found."))
                       (fun _ =>
                          onDb (collection_insert collection
                                  (_find _isPlainObject options)))))
       (fun modelOrRecord => ret modelOrRecord)
       (advance (camelize type) s).
Proof.
  intros Hnone Hexists.
  change (create (S fuel) type options)
    with (create_body (create fuel) type options).
  unfold create_body.
  erewrite bind_ok by (cbv beta; rewrite Hexists; reflexivity).
  assert (Hbuild :
            build_body (create fuel) type
              (map VStr (traitArgs options) ++ [_find _isPlainObject options]) s
            = (advance (camelize type) s, Ok (_find _isPlainObject options))).
  { pose proof (@build_without_factory naming backend _factoryMap fuel type
                  (map VStr (traitArgs options)
                     ++ [_find _isPlainObject options])%list s Hnone) as H.
    unfold build in H. rewrite H. f_equal. f_equal.
    rewrite find_plain_after_strings.
    apply find_plain_single, find_plain_shape. }
  erewrite bind_ok by exact Hbuild.
  rewrite Hnone.
  etransitivity; [apply bind_ret_tail | ].
  symmetry. unfold bind at 1, ret.
  match goal with
  | |- (let (s0, o) := ?m in _) = _ => destruct m as [s1 [r | e | ]]
  | |- match ?m with _ => _ end = _ => destruct m as [s1 [r | e | ]]
  end; reflexivity.
Qed.

Lemma bind_ret_right {A} (m : M A) (s : Server) :
  bind m (fun a => ret a) s = m s.
Proof.
  unfold bind, ret. destruct (m s) as [s' [a | e | ]]; reflexivity.
Qed.

Lemma onDb_sequences {A} (f : Db -> Db * outcome A) (s : Server) :
  factorySequences (fst (onDb f s)) = factorySequences s.
Proof. unfold onDb. destruct (f (db s)) as [d o]. reflexivity. Qed.

(** X9.  Where [create] puts a record of a type for which [factoryFor]
    finds nothing, once a model or collection is known for the type.  The
    counter of the type is advanced (to 0 when its read found nothing, by
    one from a number below [2^53]) and the first plain-object argument
    ([undefined] when there is none) is what is stored: through the
    schema's collection for the type when the schema has one; else into
    an array passed among the arguments when there is one; else into the
    store's internal collection for the type; and when that collection is
    missing too, [create] throws a configuration error, with the counter
    already advanced.  In every case the counters [create] leaves are the
    advanced ones. *)
Theorem create_without_factory (fuel : nat) (type : string)
  (options : list value) (s : Server) :
  factoryFor type = None ->
  _modelOrFactoryExistsForType type s = true ->
  let overrides := _find _isPlainObject options in
  let array := _find (fun arg => truthy arg && isArray arg) options in
  let collection := db_get (db s) (toInternalCollectionName type) in
  let s1 := advance (camelize type) s in
  (truthy (schema_collection (toCollectionName type)) = true ->
   create (S fuel) type options s
   = onDb (schema_create (toCollectionName type) overrides) s1)
  /\ (truthy (schema_collection (toCollectionName type)) = false ->
      (truthy array = true ->
       create (S fuel) type options s
       = onDb (collection_insert array overrides) s1)
      /\ (truthy array = false -> truthy collection = true ->
          create (S fuel) type options s
          = onDb (collection_insert collection overrides) s1)
      /\ (truthy array = false -> truthy collection = false ->
          create (S fuel) type options s
          = (s1, Throw (mkError ConfigurationError
                          ("You called server.create('" ++ type
                             ++ "') but no model or factory was found.")))))
  /\ factorySequences (fst (create (S fuel) type options s))
     = factorySequences s1
  /\ (sequenceOf (camelize type) s = None ->
      sequenceOf (camelize type) (fst (create (S fuel) type options s))
      = Some (Count 0))
  /\ (forall n,
         sequenceOf (camelize type) s = Some (Count n) ->
         (- 2 ^ 53 <= n < 2 ^ 53)%Z ->
         sequenceOf (camelize type) (fst (create (S fuel) type options s))
         = Some (Count (n + 1))).
Proof.
  intros Hnone Hexists overrides array collection s1.
  assert (Hcases :
    (truthy (schema_collection (toCollectionName type)) = true ->
     create (S fuel) type options s
     = onDb (schema_create (toCollectionName type) overrides) s1)
    /\ (truthy (schema_collection (toCollectionName type)) = false ->
        (truthy array = true ->
         create (S fuel) type options s
         = onDb (collection_insert array overrides) s1)
        /\ (truthy array = false -> truthy collection = true ->
            create (S fuel) type options s
            = onDb (collection_insert collection overrides) s1)
        /\ (truthy array = false -> truthy collection = false ->
            create (S fuel) type options s
            = (s1, Throw (mkError ConfigurationError
                            ("You called server.create('" ++ type
                               ++ "') but no model or factory was found.")))))).
  { rewrite create_without_factory_steps by assumption.
    rewrite bind_ret_right. fold overrides array s1.
    split.
    - intros ->. reflexivity.
    - intros ->. split; [ | split ].
      + intros Harray. rewrite Harray.
        erewrite bind_ok by reflexivity. rewrite Harray.
        erewrite bind_ok by reflexivity. reflexivity.
      + intros Harray Hcollection. rewrite Harray.
        erewrite bind_ok by reflexivity.
        change (db_get (db s1) (toInternalCollectionName type)) with collection.
        rewrite Hcollection.
        erewrite bind_ok by reflexivity. reflexivity.
      + intros Harray Hcollection. rewrite Harray.
        erewrite bind_ok by reflexivity.
        change (db_get (db s1) (toInternalCollectionName type)) with collection.
        rewrite Hcollection. reflexivity. }
  assert (Hseqs : factorySequences (fst (create (S fuel) type options s))
                  = factorySequences s1).
  { destruct Hcases as [Hschema Hstore].
    destruct (truthy (schema_collection (toCollectionName type))).
    - rewrite Hschema by reflexivity. apply onDb_sequences.
    - destruct (Hstore eq_refl) as (Harray & Hcollection & Hmissing).
      destruct (truthy array).
      + rewrite Harray by reflexivity. apply onDb_sequences.
      + destruct (truthy collection).
        * rewrite Hcollection by reflexivity. apply onDb_sequences.
        * rewrite Hmissing by reflexivity. reflexivity. }
  assert (Hcounter : forall k',
             sequenceOf k' (fst (create (S fuel) type options s))
             = sequenceOf k' s1).
  { intros k'. unfold sequenceOf, sequencesOf. now rewrite Hseqs. }
  destruct Hcases as [Hschema Hstore].
  split; [exact Hschema | ]. split; [exact Hstore | ].
  split; [exact Hseqs | ]. split.
  - intros Hfirst. rewrite Hcounter. now apply sequenceOf_advance_first.
  - intros n Hn Hrange. rewrite Hcounter.
    now apply sequenceOf_advance_next.
Qed.

(* --------------------------------------------------------------- *)
(** *** Traits that passed validation *)

Lemma readExtension_throw_kind (attrs : obj) (t : string) (e : Error) :
  readExtension attrs t = Throw e -> kind e = TypeError.
Proof.
  unfold readExtension.
  destruct (Obj.lookup t attrs) as [v|].
  - destruct v; simpl; try discriminate; intros [= <-]; reflexivity.
  - destruct (inheritedMember t); [discriminate | ].
    simpl. intros [= <-]. reflexivity.
Qed.

Lemma readExtension_not_outOfFuel (attrs : obj) (t : string) :
  readExtension attrs t <> OutOfFuel.
Proof.
  unfold readExtension.
  destruct (Obj.lookup t attrs) as [v|].
  - destruct v; discriminate.
  - destruct (inheritedMember t); discriminate.
Qed.

Lemma traitExtensions_throw_kind (attrs : obj) (traits : list string) (e : Error) :
  traitExtensions attrs traits = Throw e -> kind e = TypeError.
Proof.
  induction traits as [|t rest IH]; simpl; [discriminate | ].
  destruct (readExtension attrs t) as [ext | e' | ] eqn:E.
  - destruct (traitExtensions attrs rest) as [exts | e' | ];
      try discriminate. intros [= <-]. now apply IH.
  - intros [= <-]. eapply readExtension_throw_kind, E.
  - discriminate.
Qed.

Lemma traitExtensions_not_outOfFuel (attrs : obj) (traits : list string) :
  traitExtensions attrs traits <> OutOfFuel.
Proof.
  induction traits as [|t rest IH]; simpl; [discriminate | ].
  destruct (readExtension attrs t) as [ext | e | ] eqn:E;
    try discriminate.
  - destruct (traitExtensions attrs rest); try discriminate. contradiction.
  - exfalso. eapply readExtension_not_outOfFuel, E.
Qed.

Lemma traitExtensions_app (attrs : obj) (l1 l2 : list string) :
  traitExtensions attrs (l1 ++ l2)%list =
  match traitExtensions attrs l1 with
  | Ok e1 =>
      match traitExtensions attrs l2 with
      | Ok e2 => Ok (e1 ++ e2)%list
      | Throw e => Throw e
      | OutOfFuel => OutOfFuel
      end
  | Throw e => Throw e
  | OutOfFuel => OutOfFuel
  end.
Proof.
  induction l1 as [|t l1 IH]; simpl.
  - destruct (traitExtensions attrs l2); reflexivity.
  - destruct (readExtension attrs t); try reflexivity.
    rewrite IH.
    destruct (traitExtensions attrs l1); try reflexivity.
    destruct (traitExtensions attrs l2); reflexivity.
Qed.

(** X10.  [_mergeExtensions] relies on [_validateTraits]: for trait names
    that the factory declares it returns a merged extension whatever the
    overrides; for a list that holds a name that the attribute map does
    not have and that no plain object inherits, it throws a TypeError (the
    read of [extension] on [undefined]); and a name that the attribute
    map does not have but every plain object inherits ([toString],
    [constructor], ...) is read as a member without an [extension]: the
    merge is the one of the list without that name. *)
Theorem merge_needs_validated_traits (F : Factory) (traits : list string)
  (overrides : value) :
  (find (fun t => negb (Factory_isTrait F t)) traits = None ->
   exists merged, _mergeExtensions (attrs F) traits overrides = Ok merged)
  /\ (forall t,
         In t traits -> Obj.lookup t (attrs F) = None ->
         inheritedMember t = false ->
         exists e, _mergeExtensions (attrs F) traits overrides = Throw e
                   /\ kind e = TypeError)
  /\ (forall t before after,
         traits = (before ++ t :: after)%list ->
         Obj.lookup t (attrs F) = None -> inheritedMember t = true ->
         _mergeExtensions (attrs F) traits overrides
         = _mergeExtensions (attrs F) (before ++ after) overrides).
Proof.
  split; [ | split ].
  - intros Hall.
    assert (Hexts : exists exts, traitExtensions (attrs F) traits = Ok exts).
    { induction traits as [|t rest IH]; simpl; [eexists; reflexivity | ].
      simpl in Hall.
      destruct (negb (Factory_isTrait F t)) eqn:Ht; [discriminate | ].
      apply negb_false_iff in Ht. unfold Factory_isTrait, get in Ht.
      unfold readExtension.
      destruct (Obj.lookup t (attrs F)) as [v|]; [ | discriminate Ht ].
      destruct v; simpl in Ht; try discriminate.
      simpl. destruct (IH Hall) as [exts ->]. eexists. reflexivity. }
    destruct Hexts as [exts Hexts]. unfold _mergeExtensions.
    rewrite Hexts. eexists. reflexivity.
  - intros t Hin Habsent Hown.
    assert (Hnot : forall exts, traitExtensions (attrs F) traits <> Ok exts).
    { induction traits as [|t' rest IH]; [destruct Hin | ].
      intros exts. simpl.
      destruct Hin as [-> | Hin].
      - unfold readExtension. rewrite Habsent, Hown. simpl. discriminate.
      - destruct (readExtension (attrs F) t'); try discriminate.
        destruct (traitExtensions (attrs F) rest) as [exts' | e' | ] eqn:E;
          try discriminate.
        exfalso. now apply (IH Hin exts'). }
    unfold _mergeExtensions.
    destruct (traitExtensions (attrs F) traits) as [exts | e | ] eqn:E.
    + exfalso. now apply (Hnot exts).
    + exists e. split; [reflexivity | ].
      now apply traitExtensions_throw_kind in E.
    + exfalso. now apply (traitExtensions_not_outOfFuel (attrs F) traits).
  - intros t before after -> Habsent Hinherited.
    unfold _mergeExtensions. rewrite !traitExtensions_app.
    destruct (traitExtensions (attrs F) before) as [e1 | e | ];
      try reflexivity.
    cbn [traitExtensions]. unfold readExtension.
    rewrite Habsent, Hinherited.
    destruct (traitExtensions (attrs F) after) as [e2 | e | ];
      try reflexivity.
    rewrite <- !app_assoc, !fold_left_app. reflexivity.
Qed.

(* --------------------------------------------------------------- *)
(** *** What a pass over the placeholders keeps *)

Section Passes.
Variable create_rec : string -> list value -> M value.

(** A step that completes has removed its key, after writing at most the
    foreign key. *)
Lemma mapAssociation_ok_shape modelName overrides attr attributes s s' attributes' :
  mapAssociation create_rec modelName overrides attr attributes s
  = (s', Ok attributes') ->
  attributes' = Obj.delete attr attributes
  \/ exists id,
       attributes'
       = Obj.delete attr (Obj.set (camelize attr ++ "Id") id attributes).
Proof.
  unfold mapAssociation, bind, lift, assert, ret, throw.
  destruct (schema_modelClassFor modelName) as [associationFor | e | ];
    try discriminate.
  destruct (associationFor attr) as [[target | target] | ];
    cbn [instanceofBelongsTo Association_modelName andb negb];
    try discriminate.
  destruct (String.eqb target modelName); cbn [negb]; try discriminate.
  destruct (getProp overrides attr) as [override | e | ]; try discriminate.
  destruct (truthy override); cbn [negb].
  - intros [= _ <-]. now left.
  - destruct (getProp (get attributes attr) "traitsAndOverrides")
      as [tao | e | ]; try discriminate.
    destruct (spread tao) as [args | e | ]; try discriminate.
    destruct (create_rec target args s) as [s1 [related | e | ]];
      try discriminate.
    destruct (getProp related "id") as [id | e | ]; try discriminate.
    intros [= _ <-]. right. now exists id.
Qed.

Lemma mapAssociations_keep modelName overrides keys :
  forall attributes s s' attributes',
    mapAssociations create_rec modelName overrides keys attributes s
    = (s', Ok attributes') ->
    forall k,
      ~ In k keys ->
      (forall attr, In attr keys -> k <> camelize attr ++ "Id") ->
      Obj.lookup k attributes' = Obj.lookup k attributes.
Proof.
  induction keys as [|attr rest IH];
    intros attributes s s' attributes' Hpass k Hnot Hfk; simpl in Hpass.
  - injection Hpass as _ <-. reflexivity.
  - unfold bind in Hpass.
    destruct (mapAssociation create_rec modelName overrides attr attributes s)
      as [s1 [a1 | e | ]] eqn:Hstep; try discriminate.
    assert (Hk : k <> attr) by (intros ->; apply Hnot; now left).
    assert (Hkfk : k <> camelize attr ++ "Id") by (apply Hfk; now left).
    erewrite IH; [ | exact Hpass | | ].
    + apply mapAssociation_ok_shape in Hstep.
      destruct Hstep as [-> | [id ->]].
      * now apply lookup_delete_other.
      * rewrite lookup_delete_other by assumption.
        now apply lookup_set_other.
    + intros Hin. apply Hnot. now right.
    + intros a Hin. apply Hfk. now right.
Qed.

Lemma mapAssociations_remove modelName overrides keys :
  forall attributes s s' attributes',
    mapAssociations create_rec modelName overrides keys attributes s
    = (s', Ok attributes') ->
    forall attr,
      In attr keys ->
      (forall other, In other keys -> attr <> camelize other ++ "Id") ->
      Obj.lookup attr attributes' = None.
Proof.
  induction keys as [|key rest IH];
    intros attributes s s' attributes' Hpass attr Hin Hfk; [destruct Hin | ].
  simpl in Hpass. unfold bind in Hpass.
  destruct (mapAssociation create_rec modelName overrides key attributes s)
    as [s1 [a1 | e | ]] eqn:Hstep; try discriminate.
  destruct (in_dec string_dec attr rest) as [Hrest | Hrest].
  - eapply IH; [exact Hpass | exact Hrest | ].
    intros other Hother. apply Hfk. now right.
  - destruct Hin as [-> | Hin]; [ | contradiction ].
    erewrite mapAssociations_keep; [ | exact Hpass | exact Hrest | ].
    + apply mapAssociation_ok_shape in Hstep.
      destruct Hstep as [-> | [id ->]]; apply lookup_delete_same.
    + intros other Hother. apply Hfk. now right.
Qed.

(** X11.  A pass of [_mapAssociationsFromAttributes] that completes leaves
    every other attribute alone: an attribute that held no placeholder
    and is not the foreign key of one ([camelize(attr) + 'Id']) has the
    value it had, or is absent as it was. *)
Theorem pass_keeps_other_attributes (modelName : string) (attributes : obj)
  (overrides : value) (s s' : Server) (attributes' : obj) (k : string) :
  _mapAssociationsFromAttributes create_rec modelName attributes overrides s
  = (s', Ok attributes') ->
  ~ In k (associationKeys attributes) ->
  (forall attr, In attr (associationKeys attributes) ->
                k <> camelize attr ++ "Id") ->
  Obj.lookup k attributes' = Obj.lookup k attributes.
Proof.
  unfold _mapAssociationsFromAttributes. intros Hpass.
  eapply mapAssociations_keep. exact Hpass.
Qed.

(** X12.  A pass of [_mapAssociationsFromAttributes] that completes has
    removed every placeholder: a key that held a placeholder is absent
    from the result, unless it is itself the foreign key of a
    placeholder. *)
Theorem pass_removes_placeholders (modelName : string) (attributes : obj)
  (overrides : value) (s s' : Server) (attributes' : obj) (attr : string) :
  _mapAssociationsFromAttributes create_rec modelName attributes overrides s
  = (s', Ok attributes') ->
  In attr (associationKeys attributes) ->
  (forall other, In other (associationKeys attributes) ->
                 attr <> camelize other ++ "Id") ->
  Obj.lookup attr attributes' = None.
Proof.
  unfold _mapAssociationsFromAttributes. intros Hpass.
  eapply mapAssociations_remove. exact Hpass.
Qed.

Lemma mapAssociations_suppressed modelName (ov : obj) associationFor keys :
  schema_modelClassFor modelName = Ok associationFor ->
  (forall attr, In attr keys ->
                truthy (get ov attr) = true
                /\ exists target, associationFor attr = Some (BelongsTo target)
                                  /\ target <> modelName) ->
  forall attributes s,
    mapAssociations create_rec modelName (VObj ov) keys attributes s
    = (s, Ok (fold_left (fun acc attr => Obj.delete attr acc) keys attributes)).
Proof.
  intros Hmc. induction keys as [|attr rest IH]; intros Hall attributes s.
  - reflexivity.
  - simpl.
    destruct (Hall attr (or_introl eq_refl)) as (Htruthy & target & Hassoc & Hne).
    erewrite bind_ok.
    2:{ erewrite mapAssociation_belongsTo;
          [ | eassumption | eassumption | assumption | reflexivity ].
        rewrite Htruthy. reflexivity. }
    apply IH. intros a Hin. apply Hall. now right.
Qed.

(** X13.  When the overrides hold a truthy value under every placeholder
    key, and each of these keys is a declared belongs-to to another type,
    the pass creates nothing: the server is left as it was and the result
    is the attribute map without the placeholder keys. *)
Theorem overridden_placeholders_create_nothing (modelName : string)
  (attributes ov : obj) (associationFor : string -> option Association)
  (s : Server) :
  schema_modelClassFor modelName = Ok associationFor ->
  (forall attr, In attr (associationKeys attributes) ->
                truthy (get ov attr) = true
                /\ exists target, associationFor attr = Some (BelongsTo target)
                                  /\ target <> modelName) ->
  _mapAssociationsFromAttributes create_rec modelName attributes (VObj ov) s
  = (s, Ok (fold_left (fun acc attr => Obj.delete attr acc)
                      (associationKeys attributes) attributes)).
Proof.
  intros Hmc Hall. unfold _mapAssociationsFromAttributes.
  now apply mapAssociations_suppressed with (associationFor := associationFor).
Qed.
End Passes.

(* --------------------------------------------------------------- *)
(** *** Spellings of a type *)

(** X14.  Factories and sequence counters are keyed by the camelized type:
    two spellings that camelize alike find the same factory and move the
    same counter, so that when [factoryFor] finds nothing [build] does the
    same for both, and one call for each leaves the counter at 1 when
    its read found nothing, and two above a numeric counter that stays
    below [2^53]. *)
Theorem spellings_share_factory_and_counter (fuel : nat) (type type' : string)
  (args : list value) (s : Server) :
  camelize type = camelize type' ->
  let k := camelize type in
  let both := fst (build fuel type' args (fst (build fuel type args s))) in
  factoryFor type = factoryFor type'
  /\ (factoryFor type = None ->
      build fuel type args s = build fuel type' args s
      /\ (sequenceOf k s = None -> sequenceOf k both = Some (Count 1))
      /\ (forall n,
             sequenceOf k s = Some (Count n) ->
             (- 2 ^ 53 <= n)%Z -> (n + 2 <= 2 ^ 53)%Z ->
             sequenceOf k both = Some (Count (n + 2)))).
Proof.
  intros Hsame k both.
  assert (Hfactory : factoryFor type = factoryFor type').
  { unfold factoryFor. now rewrite Hsame. }
  split; [exact Hfactory | ].
  intros Hnone.
  assert (Hnone' : factoryFor type' = None) by now rewrite <- Hfactory.
  assert (Hboth : both = Nat.iter 2 (advance k) s).
  { unfold both. rewrite !build_without_factory by assumption.
    simpl fst. now rewrite <- Hsame. }
  split; [ | split ].
  - rewrite !build_without_factory by assumption. now rewrite Hsame.
  - intros Hfirst. rewrite Hboth.
    now rewrite iter_advance_first by (assumption || lia).
  - intros n Hn Hlo Hhi. rewrite Hboth.
    erewrite iter_advance_count;
      [ reflexivity | exact Hn | assumption | simpl; lia ].
Qed.

(* --------------------------------------------------------------- *)
(** *** How [build] and [create] compose *)

Lemma traitArgs_normal (options : list value) :
  traitArgs (map VStr (traitArgs options) ++ [_find _isPlainObject options])
  = traitArgs options.
Proof. apply traitArgs_again, find_plain_not_trait. Qed.

Lemma find_plain_normal (options : list value) :
  _find _isPlainObject
        (map VStr (traitArgs options) ++ [_find _isPlainObject options])
  = _find _isPlainObject options.
Proof.
  rewrite find_plain_after_strings.
  apply find_plain_single, find_plain_shape.
Qed.

Lemma build_body_reads (create_rec : string -> list value -> M value)
  (type : string) (args args' : list value) :
  traitArgs args = traitArgs args' ->
  _find _isPlainObject args = _find _isPlainObject args' ->
  build_body create_rec type args = build_body create_rec type args'.
Proof.
  intros Htraits Hoverrides. unfold build_body.
  now rewrite Htraits, Hoverrides.
Qed.

(** X20.  [build] reads its arguments only for the trait names (the
    non-empty strings) and the first plain object: any two argument lists
    that agree on these give the same run, so numbers, arrays, [null],
    empty strings and further objects among the arguments are ignored,
    and a call with the trait names followed by the first plain object
    does what the original call does. *)
Theorem build_ignores_other_arguments (fuel : nat) (type : string)
  (args : list value) (s : Server) :
  (forall args',
      traitArgs args = traitArgs args' ->
      _find _isPlainObject args = _find _isPlainObject args' ->
      build fuel type args s = build fuel type args' s)
  /\ build fuel type
       (map VStr (traitArgs args) ++ [_find _isPlainObject args]) s
     = build fuel type args s.
Proof.
  split.
  - intros args' Htraits Hoverrides. unfold build.
    now rewrite (build_body_reads _ _ _ _ Htraits Hoverrides).
  - unfold build. erewrite build_body_reads; [reflexivity | | ].
    + apply traitArgs_normal.
    + apply find_plain_normal.
Qed.

Lemma create_steps (fuel : nat) (type : string) (options : list value)
  (s : Server) :
  _modelOrFactoryExistsForType type s = true ->
  create (S fuel) type options s =
  bind (build fuel type options)
       (fun attrs =>
          bind (insertRecord type options attrs)
               (fun modelOrRecord =>
                  bind (runAfterCreate _factoryMap type options modelOrRecord)
                       (fun _ => ret modelOrRecord))) s.
Proof.
  intros Hexists.
  change (create (S fuel) type options)
    with (create_body (create fuel) type options).
  unfold create_body.
  erewrite bind_ok by (cbv beta; rewrite Hexists; reflexivity).
  unfold build.
  rewrite (@build_body_reads (create fuel) type
             (map VStr (traitArgs options) ++ [_find _isPlainObject options])
             options (traitArgs_normal options) (find_plain_normal options)).
  reflexivity.
Qed.

(** X21.  A failure of [build] is the failure of [create]: once the type
    is accepted, if building the attributes throws (an unknown trait, a
    placeholder that cannot be resolved, a failed related record), then
    [create] throws the same error, leaves the server as [build] left it,
    and neither stores a record nor runs a callback. *)
Theorem create_fails_as_build_fails (fuel : nat) (type : string)
  (options : list value) (s s1 : Server) (e : Error) :
  _modelOrFactoryExistsForType type s = true ->
  build fuel type options s = (s1, Throw e) ->
  create (S fuel) type options s = (s1, Throw e).
Proof.
  intros Hexists Hbuild. rewrite create_steps by assumption.
  now apply bind_throw.
Qed.

(** X22.  [create] returns what the store returned for the attributes
    [build] built, and calls the [afterCreate] callbacks afterwards, with
    that record: when the attributes are built and stored, [create]
    returns the stored record if the callbacks complete, and if one of
    them throws, [create] throws that error while the record stays
    stored (the server is as the callback left it). *)
Theorem create_returns_the_stored_record (fuel : nat) (type : string)
  (options : list value) (s s1 s2 : Server) (attrs record : value) :
  _modelOrFactoryExistsForType type s = true ->
  build fuel type options s = (s1, Ok attrs) ->
  insertRecord type options attrs s1 = (s2, Ok record) ->
  (forall s3, runAfterCreate _factoryMap type options record s2 = (s3, Ok tt) ->
              create (S fuel) type options s = (s3, Ok record))
  /\ (forall s3 e,
         runAfterCreate _factoryMap type options record s2 = (s3, Throw e) ->
         create (S fuel) type options s = (s3, Throw e))
  /\ (factoryFor type = None ->
      create (S fuel) type options s = (s2, Ok record)).
Proof.
  intros Hexists Hbuild Hinsert.
  rewrite create_steps by assumption.
  erewrite bind_ok by exact Hbuild.
  erewrite bind_ok by exact Hinsert.
  split; [ | split ].
  - intros s3 Hhooks. erewrite bind_ok by exact Hhooks. reflexivity.
  - intros s3 e Hhooks. now apply bind_throw.
  - intros Hnone. unfold runAfterCreate. rewrite Hnone.
    erewrite bind_ok by reflexivity. reflexivity.
Qed.

(* --------------------------------------------------------------- *)
(** *** Types named like a member of [Object.prototype] *)

(** X23.  Once a factory map is loaded, a type whose camelized name is the
    name of a member of [Object.prototype] and has no factory of its own
    cannot be built: [build] advances the counter and throws a TypeError,
    and so do [buildList] for a positive amount and, when the type is
    accepted, [create]; the store is left as it was.  The counter of such
    a name is never a number: the first read finds the inherited member,
    and from then on it is a string that grows. *)
Theorem inherited_member_is_no_factory (fuel : nat) (type : string)
  (factoryMap : list (string * Factory)) (args : list value) (s : Server) :
  _factoryMap = Some factoryMap ->
  Obj.lookup (camelize type) factoryMap = None ->
  inheritedMember (camelize type) = true ->
  let k := camelize type in
  let e := mkError TypeError "OriginalFactory.extend is not a function" in
  build fuel type args s = (advance k s, Throw e)
  /\ (forall n,
         buildList fuel type (VNum (Z.of_nat (S n) # 1)) args s
         = (advance k s, Throw e))
  /\ (_modelOrFactoryExistsForType type s = true ->
      create (S fuel) type args s = (advance k s, Throw e))
  /\ db (advance k s) = db s
  /\ (Obj.lookup k (sequencesOf s) = None ->
      sequenceOf k s = Some (Inherited k)
      /\ (k <> "__proto__" -> sequenceOf k (advance k s) = Some (Text k 1))
      /\ (k = "__proto__" ->
          sequenceOf k (advance k s) = Some (Inherited k)))
  /\ (forall member ones,
         sequenceOf k s = Some (Text member ones) ->
         sequenceOf k (advance k s) = Some (Text member (S ones)))
  /\ ((forall n, sequenceOf k s <> Some (Count n)) ->
      forall n, sequenceOf k (advance k s) <> Some (Count n)).
Proof.
  intros Hmap Habsent Hinherited k e.
  assert (Hfound : factoryFor type = Some (InheritedMember k)).
  { unfold factoryFor. now rewrite Hmap, Habsent, Hinherited. }
  fold k in Habsent, Hinherited.
  assert (Hbuild : forall args', build fuel type args' s = (advance k s, Throw e)).
  { intros args'. now apply build_inherited_member with (member := k). }
  split; [apply Hbuild | ].
  split.
  { intros n.
    rewrite buildList_checked, isInteger_whole, rounds_whole, Nat2Z.id.
    cbn [repeatM]. now apply bind_throw. }
  split.
  { intros Hexists. rewrite create_steps by assumption.
    now apply bind_throw. }
  split; [reflexivity | ].
  split.
  { intros Hown.
    assert (Hread : sequenceOf k s = Some (Inherited k)).
    { unfold sequenceOf, readSequence. now rewrite Hown, Hinherited. }
    split; [exact Hread | ].
    split.
    - intros Hk. now rewrite sequenceOf_advance_same, Hread.
    - intros Hk. rewrite Hk in *.
      now rewrite sequenceOf_advance_proto. }
  split.
  { intros member ones Hread.
    rewrite sequenceOf_advance_read, Hread; [reflexivity | ].
    left. erewrite sequenceOf_own by (eassumption || discriminate).
    discriminate. }
  intros Hnot n.
  destruct (Obj.lookup k (sequencesOf s)) as [c|] eqn:Hown.
  - rewrite sequenceOf_advance_read by (left; rewrite Hown; discriminate).
    destruct (sequenceOf k s) as [[c' | member ones | member]|] eqn:Hread.
    + exfalso. now apply (Hnot c').
    + discriminate.
    + discriminate.
    + unfold sequenceOf, readSequence in Hread.
      rewrite Hown in Hread. discriminate.
  - destruct (string_dec k "__proto__") as [Hk | Hk].
    + rewrite Hk in *. rewrite sequenceOf_advance_proto by assumption.
      apply Hnot.
    + rewrite sequenceOf_advance_same by assumption.
      unfold sequenceOf at 1, readSequence. rewrite Hown, Hinherited.
      discriminate.
Qed.

End Coverage.

(* --------------------------------------------------------------- *)
(** *** Loading factories *)

Section LoadingFacts.
Context {naming : Naming} {backend : Backend}.
Variable db_createCollection : string -> Db -> Db * outcome unit.
Variable A : Type.

Lemma lookup_app_any (k : string) (l1 l2 : list (string * A)) :
  Obj.lookup k (l1 ++ l2)%list =
  match Obj.lookup k l1 with
  | Some v => Some v
  | None => Obj.lookup k l2
  end.
Proof.
  induction l1 as [|[k1 v1] l1 IH]; simpl; auto.
  destruct (String.eqb k k1); auto.
Qed.

Lemma lookup_fold_set (source target : list (string * A)) (k : string) :
  NoDup (Obj.keys source) ->
  Obj.lookup k
    (fold_left (fun acc kv => Obj.set (fst kv) (snd kv) acc) source target) =
  match Obj.lookup k source with
  | Some v => Some v
  | None => Obj.lookup k target
  end.
Proof.
  revert target.
  induction source as [|[k0 v0] rest IH]; intros target Hnodup; simpl; auto.
  inversion Hnodup as [|? ? Hnotin Hrest]; subst.
  rewrite IH by assumption.
  destruct (String.eqb k k0) eqn:E.
  - apply String.eqb_eq in E. subst k0.
    assert (Hnone : Obj.lookup k rest = None).
    { clear - Hnotin. induction rest as [|[k1 v1] rest IH]; simpl; auto.
      destruct (String.eqb k k1) eqn:E1.
      - apply String.eqb_eq in E1. subst. exfalso. apply Hnotin. now left.
      - apply IH. intros Hin. apply Hnotin. now right. }
    rewrite Hnone. apply lookup_set_same.
  - destruct (Obj.lookup k rest); [reflexivity | ].
    apply lookup_set_other. intros ->. now rewrite String.eqb_refl in E.
Qed.
End LoadingFacts.

Section LoadingClaims.
Context {naming : Naming} {backend : Backend}.
Variable db_createCollection : string -> Db -> Db * outcome unit.

(** X15.  After [loadFactories(factoryMap)], [factoryFor(type)] finds the
    factory the new map holds under the camelized type, and otherwise what
    a loaded map with the factories registered before finds: loading adds
    and replaces, it never forgets a factory, and it does so even when a
    collection cannot be created.  Loading nothing leaves the store alone
    and, for a camelized type that is not the name of a member of
    [Object.prototype], changes nothing to what [factoryFor] finds; for
    such a name, the first loading, even of nothing, makes [factoryFor]
    find the inherited member where it found nothing. *)
Theorem loadFactories_then_factoryFor (loaded : list (string * Factory))
  (current : option (list (string * Factory))) (d : Db) (type : string) :
  NoDup (Obj.keys loaded) ->
  let after :=
    fst (fst (loadFactories db_createCollection (Some loaded) current d)) in
  let afterNothing :=
    fst (fst (loadFactories db_createCollection None current d)) in
  let currentFactoryMap :=
    match current with
    | Some m => m
    | None => []
    end in
  factoryFor after type
  = match Obj.lookup (camelize type) loaded with
    | Some F => Some (Registered F)
    | None => factoryFor (Some currentFactoryMap) type
    end
  /\ (forall F, Obj.lookup (camelize type) loaded = Some F ->
                factoryFor after type = Some (Registered F))
  /\ (forall F, Obj.lookup (camelize type) loaded = None ->
                factoryFor current type = Some (Registered F) ->
                factoryFor after type = Some (Registered F))
  /\ (Obj.lookup (camelize type) loaded = None ->
      inheritedMember (camelize type) = false ->
      factoryFor after type = factoryFor current type)
  /\ (inheritedMember (camelize type) = false ->
      factoryFor afterNothing type = factoryFor current type)
  /\ (current = None -> inheritedMember (camelize type) = true ->
      factoryFor current type = None
      /\ factoryFor afterNothing type
         = Some (InheritedMember (camelize type)))
  /\ snd (fst (loadFactories db_createCollection None current d)) = d
  /\ snd (loadFactories db_createCollection None current d) = Ok tt.
Proof.
  intros Hnodup after afterNothing currentFactoryMap.
  assert (Hmain :
            factoryFor after type
            = match Obj.lookup (camelize type) loaded with
              | Some F => Some (Registered F)
              | None => factoryFor (Some currentFactoryMap) type
              end).
  { unfold after, loadFactories.
    destruct (createCollections db_createCollection (Obj.keys loaded) d)
      as [d' o].
    unfold factoryFor, assignFactories. cbn [fst].
    rewrite lookup_fold_set by assumption.
    destruct (Obj.lookup (camelize type) loaded); reflexivity. }
  assert (Hloaded : forall m type0,
             Obj.lookup (camelize type0) m <> None
             \/ inheritedMember (camelize type0) = false ->
             factoryFor (Some m) type0
             = match Obj.lookup (camelize type0) m with
               | Some F => Some (Registered F)
               | None => None
               end).
  { intros m type0 H. unfold factoryFor.
    destruct (Obj.lookup (camelize type0) m); [reflexivity | ].
    destruct H as [H | ->]; [contradiction | reflexivity]. }
  assert (Hnothing : factoryFor afterNothing type
                     = factoryFor (Some currentFactoryMap) type).
  { reflexivity. }
  split; [exact Hmain | ].
  split; [intros F HF; now rewrite Hmain, HF | ].
  split.
  { intros F Habsent HF. rewrite Hmain, Habsent.
    unfold factoryFor in HF |- *. unfold currentFactoryMap.
    destruct current as [m|]; [exact HF | discriminate]. }
  split.
  { intros Habsent Hown. rewrite Hmain, Habsent.
    unfold factoryFor, currentFactoryMap.
    destruct current as [m|]; [reflexivity | ].
    simpl. now rewrite Hown. }
  split.
  { intros Hown. rewrite Hnothing.
    unfold factoryFor, currentFactoryMap.
    destruct current as [m|]; [reflexivity | ].
    simpl. now rewrite Hown. }
  split.
  { intros -> Hinherited. split; [reflexivity | ].
    rewrite Hnothing. unfold factoryFor, currentFactoryMap. simpl.
    now rewrite Hinherited. }
  split; reflexivity.
Qed.
End LoadingClaims.

(* --------------------------------------------------------------- *)
(** *** Resource routes *)

Section RouteFacts.
Context {naming : Naming}.
Variable Router : Type.
Variable verb : string -> list string -> Router -> Router * option Thrown.

Lemma forEachRoute_app {A} (f : A -> RouteM Router) (l1 l2 : list A) (r : Router) :
  forEachRoute f (l1 ++ l2) r =
  match forEachRoute f l1 r with
  | (r', None) => forEachRoute f l2 r'
  | (r', Some t) => (r', Some t)
  end.
Proof.
  revert r. induction l1 as [|x l1 IH]; intros r; simpl; [reflexivity | ].
  destruct (f x r) as [r' [t | ]]; [reflexivity | apply IH].
Qed.

Lemma slash_differs (name : string) : String.eqb ("/" ++ name) name = false.
Proof.
  apply String.eqb_neq. intros H.
  apply (f_equal String.length) in H. simpl in H. lia.
Qed.

Lemma unknown_action (path action : string) :
  ~ In action allActions ->
  actionsMethodsAndsPathsMappings path action = None.
Proof.
  intros Hnot. unfold actionsMethodsAndsPathsMappings.
  repeat match goal with
         | |- context [String.eqb action ?a] =>
             let E := fresh "E" in
             destruct (String.eqb action a) eqn:E;
             [ apply String.eqb_eq in E; exfalso; apply Hnot;
               rewrite E; simpl; tauto | clear E ]
         end.
  reflexivity.
Qed.

(** X16.  [resource] refuses [only] together with [except]: when both
    lists are non-empty it throws its message and registers no route. *)
Theorem resource_refuses_only_with_except (resourceName : string)
  (only except : list string) (path : option string) (r : Router) :
  only <> [] -> except <> [] ->
  resource verb resourceName (Some only) (Some except) path r
  = (r, Some (ThrownString "cannot use both :only and :except options")).
Proof.
  intros Honly Hexcept. unfold resource.
  destruct only; [contradiction | ]. destruct except; [contradiction | ].
  reflexivity.
Qed.

(** X17.  Without [only] and [except], [resource] registers the five
    actions as six routes, in this order: [get path], [get path/:id],
    [post path], [put path/:id], [patch path/:id], [del path/:id], where
    [path] is the given path, or [/] followed by the pluralized name when
    none (or the empty one) is given.  Each verb also receives the
    pluralized name, except when the path equals it; a verb that throws
    stops the registration. *)
Theorem resource_registers_six_routes (resourceName : string)
  (only except : option (list string)) (path : option string) (r : Router) :
  (only = None \/ only = Some []) -> (except = None \/ except = Some []) ->
  let name := pluralize resourceName in
  let p := match path with
           | Some given => if String.eqb given "" then "/" ++ name else given
           | None => "/" ++ name
           end in
  let args := fun methodPath =>
                if String.eqb p name then [methodPath] else [methodPath; name] in
  resource verb resourceName only except path r
  = forEachRoute (fun call => verb (fst call) (args (snd call)))
      [("get", p); ("get", p ++ "/:id"); ("post", p);
       ("put", p ++ "/:id"); ("patch", p ++ "/:id"); ("del", p ++ "/:id")] r
  /\ (path = None \/ path = Some "" -> args = fun methodPath => [methodPath; name]).
Proof.
  intros Honly Hexcept name p args. split.
  - unfold resource. fold name. fold p.
    assert (Ho : match only with Some l => l | None => [] end = [])
      by (destruct Honly as [-> | ->]; reflexivity).
    assert (He : match except with Some l => l | None => [] end = [])
      by (destruct Hexcept as [-> | ->]; reflexivity).
    rewrite Ho, He. cbn [nonEmpty andb].
    unfold allActions, args. cbn [forEachRoute actionsMethodsAndsPathsMappings String.eqb Ascii.eqb Bool.eqb fst snd].
    destruct (String.eqb p name);
      repeat match goal with
             | |- context [verb ?m ?a ?r0] =>
                 destruct (verb m a r0) as [? [? | ]]; try reflexivity
             end.
  - intros Hpath. unfold args.
    assert (Hp : p = "/" ++ name)
      by (unfold p; destruct Hpath as [-> | ->]; reflexivity).
    rewrite Hp, slash_differs. reflexivity.
Qed.

(** X18.  [except] is the complement of [only]: with a non-empty [except]
    list, [resource] registers what it registers for [only] the actions
    that are not excepted (names that are no action are ignored), as long
    as some action is left; when every action is excepted it registers
    nothing, whereas an empty [only] list registers every action. *)
Theorem resource_except_is_the_complement (resourceName : string)
  (except : list string) (path : option string) (r : Router) :
  except <> [] ->
  let kept := filter (notExcepted except) allActions in
  (kept <> [] ->
   resource verb resourceName None (Some except) path r
   = resource verb resourceName (Some kept) None path r)
  /\ (kept = [] ->
      resource verb resourceName None (Some except) path r = (r, None))
  /\ resource verb resourceName (Some []) None path r
     = resource verb resourceName None None path r.
Proof.
  intros Hexcept kept. unfold resource.
  destruct except as [|e rest]; [contradiction | ].
  cbn [nonEmpty andb]. fold kept.
  split; [ | split ].
  - intros Hkept. destruct kept as [|k ks] eqn:E; [contradiction | ].
    reflexivity.
  - intros ->. reflexivity.
  - reflexivity.
Qed.

(** X19.  An [only] list that names something that is no action makes
    [resource] throw a TypeError when it reaches that name, and the routes
    of the actions listed before it stay registered: at once when the
    name comes first, and otherwise after the run for the names before
    it, if that run completed. *)
Theorem resource_unknown_action (resourceName : string)
  (before after : list string) (unknown : string) (path : option string)
  (r : Router) :
  ~ In unknown allActions ->
  (before = [] ->
   resource verb resourceName (Some (unknown :: after)) None path r
   = (r, Some ThrownTypeError))
  /\ (before <> [] ->
      resource verb resourceName (Some (before ++ unknown :: after)%list) None
               path r
      = match resource verb resourceName (Some before) None path r with
        | (r', None) => (r', Some ThrownTypeError)
        | (r', Some t) => (r', Some t)
        end).
Proof.
  intros Hunknown. split.
  - intros _. unfold resource. cbn [nonEmpty andb forEachRoute].
    now rewrite unknown_action.
  - intros Hbefore. unfold resource.
    destruct before as [|b bs]; [contradiction | ].
    cbn [nonEmpty andb app].
    change (b :: (bs ++ unknown :: after)%list)
      with ((b :: bs) ++ unknown :: after)%list.
    rewrite forEachRoute_app.
    match goal with
    | |- context [forEachRoute ?f (b :: bs) r] =>
        destruct (forEachRoute f (b :: bs) r) as [r' [t | ]]
    end; [reflexivity | ].
    cbn [forEachRoute]. now rewrite unknown_action.
Qed.
End RouteFacts.

(* ================================================================= *)
(** ** The further properties on the small configuration *)

Lemma buildList_length_witness :
  buildList Demo.factories 0 "ghost" (VNum (2 # 1)) [VObj [("a", VNum 1)]]
            Demo.fresh
  = (advance "ghost" (advance "ghost" Demo.fresh),
     Ok [VObj [("a", VNum 1)]; VObj [("a", VNum 1)]])
  /\ List.length [VObj [("a", VNum 1)]; VObj [("a", VNum 1)]] = 2%nat.
Proof.
  assert (H : buildList Demo.factories 0 "ghost" (VNum (2 # 1))
                        [VObj [("a", VNum 1)]] Demo.fresh
              = (advance "ghost" (advance "ghost" Demo.fresh),
                 Ok [VObj [("a", VNum 1)]; VObj [("a", VNum 1)]]))
    by reflexivity.
  split; [exact H | ].
  destruct (@buildList_length Demo.naming Demo.backend Demo.factories 0
              "ghost" (VNum (2 # 1)) [VObj [("a", VNum 1)]] Demo.fresh _ _ H)
    as (_ & _ & Hlen).
  exact (Hlen 2%Z eq_refl).
Defined.

Lemma buildList_without_factory_witness :
  factoryFor Demo.factories "ghost" = None
  /\ buildList Demo.factories 0 "ghost" (VNum (Z.of_nat 2 # 1))
               [VStr "x"] Demo.fresh
     = (Nat.iter 2 (advance "ghost") Demo.fresh, Ok [VUndefined; VUndefined])
  /\ sequenceOf "ghost" (Nat.iter 2 (advance "ghost") Demo.fresh)
     = Some (Count 1).
Proof.
  split; [reflexivity | ].
  destruct (@buildList_without_factory Demo.naming Demo.backend
              Demo.factories 0 "ghost" 2 [VStr "x"] Demo.fresh eq_refl)
    as (Hlist & _ & Hfirst & _).
  split; [exact Hlist | ].
  apply Hfirst; [reflexivity | discriminate | vm_compute; discriminate].
Defined.

Lemma createList_checks_the_type_first_witness :
  _modelOrFactoryExistsForType "ghost" Demo.fresh = false
  /\ exists e,
       createList Demo.factories 3 "ghost" (VNum (3 # 2)) [] Demo.fresh
       = (Demo.fresh, Throw e)
       /\ kind e = ConfigurationError.
Proof.
  split; [reflexivity | ].
  eexists. split.
  - exact (@createList_checks_the_type_first Demo.naming Demo.backend
             Demo.factories 3 "ghost" (VNum (3 # 2)) [] Demo.fresh eq_refl).
  - reflexivity.
Defined.

Lemma createList_length_witness :
  snd (createList Demo.factories 3 "author" (VNum (2 # 1)) [] Demo.fresh)
  = Ok [VObj [("name", VNum 0); ("id", VNum 1)];
        VObj [("name", VNum 1); ("id", VNum 2)]]
  /\ List.length [VObj [("name", VNum 0); ("id", VNum 1)];
                  VObj [("name", VNum 1); ("id", VNum 2)]] = 2%nat.
Proof.
  split; [reflexivity | ].
  assert (H : createList Demo.factories 3 "author" (VNum (2 # 1)) [] Demo.fresh
              = (fst (createList Demo.factories 3 "author" (VNum (2 # 1)) []
                                 Demo.fresh),
                 Ok [VObj [("name", VNum 0); ("id", VNum 1)];
                     VObj [("name", VNum 1); ("id", VNum 2)]]))
    by (vm_compute; reflexivity).
  destruct (@createList_length Demo.naming Demo.backend Demo.factories 3
              "author" (VNum (2 # 1)) [] Demo.fresh _ _ H)
    as (_ & _ & _ & Hlen).
  exact (Hlen 2%Z eq_refl).
Defined.

Lemma createList_stops_at_the_first_failure_witness :
  _modelOrFactoryExistsForType "comment" Demo.fresh = true
  /\ (0 < 2)%nat
  /\ repeatM 0 (create Demo.factories 3 "comment" [VStr "Z"; VUndefined])
             Demo.fresh = (Demo.fresh, Ok [])
  /\ create Demo.factories 3 "comment" [VStr "Z"; VUndefined] Demo.fresh
     = (advance "comment" Demo.fresh,
        Throw (mkError ConfigurationError
                 (unknownTraitMessage "Z" "comment")))
  /\ createList Demo.factories 3 "comment" (VNum (Z.of_nat 2 # 1))
                [VStr "Z"] Demo.fresh
     = (advance "comment" Demo.fresh,
        Throw (mkError ConfigurationError
                 (unknownTraitMessage "Z" "comment"))).
Proof.
  assert (Hlt : (0 < 2)%nat) by lia.
  split; [reflexivity | ]. split; [exact Hlt | ].
  split; [reflexivity | ]. split; [reflexivity | ].
  exact (@createList_stops_at_the_first_failure Demo.naming Demo.backend
           Demo.factories 3 "comment" 2 0 [VStr "Z"] Demo.fresh Demo.fresh
           (advance "comment" Demo.fresh) []
           (mkError ConfigurationError (unknownTraitMessage "Z" "comment"))
           eq_refl Hlt eq_refl eq_refl).
Defined.

Lemma create_rejects_unknown_and_plural_types_witness :
  _modelOrFactoryExistsForType "ghost" Demo.fresh = false
  /\ exists e,
       create Demo.factories 1 "ghost" [] Demo.fresh = (Demo.fresh, Throw e)
       /\ kind e = ConfigurationError.
Proof.
  split; [reflexivity | ].
  eexists. split.
  - exact (proj1 (@create_rejects_unknown_and_plural_types
                    Demo.naming Demo.backend Demo.factories 0 "ghost" []
                    Demo.fresh (or_introl eq_refl))).
  - reflexivity.
Defined.

Lemma create_without_factory_witness :
  factoryFor Demo.factories "ghost" = None
  /\ _modelOrFactoryExistsForType "ghost" Sample.withGhosts = true
  /\ create Demo.factories 1 "ghost" [VObj [("a", VNum 1)]] Sample.withGhosts
     = (mkServer
          ([("_ghosts", [VObj [("a", VNum 1); ("id", VNum 1)]])] : Db)
          (Some [("ghost", Count 0)]),
        Ok (VObj [("a", VNum 1); ("id", VNum 1)])).
Proof.
  split; [reflexivity | ]. split; [reflexivity | ].
  destruct (@create_without_factory Demo.naming Demo.backend Demo.factories
              0 "ghost" [VObj [("a", VNum 1)]] Sample.withGhosts
              eq_refl eq_refl) as (_ & Hrest & _).
  destruct (Hrest eq_refl) as (_ & Hcollection & _).
  rewrite (Hcollection eq_refl eq_refl). reflexivity.
Defined.

Lemma pass_keeps_other_attributes_witness :
  _mapAssociationsFromAttributes (create Demo.factories 2) "post"
    (attrs Demo.postFactory) VUndefined Demo.fresh
  = (fst (create Demo.factories 2 "author" [] Demo.fresh),
     Ok [("title", VStr "Lorem"); ("authorId", VNum 1)])
  /\ ~ In "title" (associationKeys (attrs Demo.postFactory))
  /\ Obj.lookup "title" [("title", VStr "Lorem"); ("authorId", VNum 1)]
     = Obj.lookup "title" (attrs Demo.postFactory).
Proof.
  assert (Hnot : ~ In "title" (associationKeys (attrs Demo.postFactory))).
  { simpl. intros [H | []]. discriminate. }
  assert (Hpass :
            _mapAssociationsFromAttributes (create Demo.factories 2) "post"
              (attrs Demo.postFactory) VUndefined Demo.fresh
            = (fst (create Demo.factories 2 "author" [] Demo.fresh),
               Ok [("title", VStr "Lorem"); ("authorId", VNum 1)]))
    by (vm_compute; reflexivity).
  split; [exact Hpass | ]. split; [exact Hnot | ].
  apply (@pass_keeps_other_attributes Demo.naming Demo.backend
           (create Demo.factories 2) "post" (attrs Demo.postFactory)
           VUndefined Demo.fresh
           (fst (create Demo.factories 2 "author" [] Demo.fresh))
           [("title", VStr "Lorem"); ("authorId", VNum 1)] "title"
           Hpass Hnot).
  intros attr [<- | []]. discriminate.
Defined.

Lemma pass_removes_placeholders_witness :
  _mapAssociationsFromAttributes (create Demo.factories 2) "post"
    (attrs Demo.postFactory) VUndefined Demo.fresh
  = (fst (create Demo.factories 2 "author" [] Demo.fresh),
     Ok [("title", VStr "Lorem"); ("authorId", VNum 1)])
  /\ In "author" (associationKeys (attrs Demo.postFactory))
  /\ Obj.lookup "author" [("title", VStr "Lorem"); ("authorId", VNum 1)]
     = None.
Proof.
  assert (Hin : In "author" (associationKeys (attrs Demo.postFactory))).
  { simpl. now left. }
  assert (Hpass :
            _mapAssociationsFromAttributes (create Demo.factories 2) "post"
              (attrs Demo.postFactory) VUndefined Demo.fresh
            = (fst (create Demo.factories 2 "author" [] Demo.fresh),
               Ok [("title", VStr "Lorem"); ("authorId", VNum 1)]))
    by (vm_compute; reflexivity).
  split; [exact Hpass | ]. split; [exact Hin | ].
  apply (@pass_removes_placeholders Demo.naming Demo.backend
           (create Demo.factories 2) "post" (attrs Demo.postFactory)
           VUndefined Demo.fresh
           (fst (create Demo.factories 2 "author" [] Demo.fresh))
           [("title", VStr "Lorem"); ("authorId", VNum 1)] "author"
           Hpass Hin).
  intros other [<- | []]. discriminate.
Defined.

Lemma overridden_placeholders_create_nothing_witness :
  schema_modelClassFor "post" = Ok (Demo.associationsOf "post")
  /\ _mapAssociationsFromAttributes (create Demo.factories 2) "post"
       (attrs Demo.postFactory) (VObj [("author", VNum 7)]) Demo.fresh
     = (Demo.fresh, Ok [("title", VStr "Lorem")]).
Proof.
  split; [reflexivity | ].
  apply (@overridden_placeholders_create_nothing Demo.naming Demo.backend
           (create Demo.factories 2) "post" (attrs Demo.postFactory)
           [("author", VNum 7)] (Demo.associationsOf "post") Demo.fresh
           eq_refl).
  intros attr [<- | []]. split; [reflexivity | ].
  exists "author". split; [reflexivity | discriminate].
Defined.

Lemma spellings_share_factory_and_counter_witness :
  @camelize Sample.dashNaming "blog-post" = @camelize Sample.dashNaming "blogPost"
  /\ @build Sample.dashNaming Demo.backend None 0 "blog-post" [] Demo.fresh
     = @build Sample.dashNaming Demo.backend None 0 "blogPost" [] Demo.fresh
  /\ sequenceOf "blogPost"
       (fst (@build Sample.dashNaming Demo.backend None 0 "blogPost" []
               (fst (@build Sample.dashNaming Demo.backend None 0 "blog-post"
                            [] Demo.fresh))))
     = Some (Count 1).
Proof.
  split; [reflexivity | ].
  destruct (@spellings_share_factory_and_counter Sample.dashNaming Demo.backend
              None 0 "blog-post" "blogPost" [] Demo.fresh eq_refl)
    as (_ & H).
  destruct (H eq_refl) as (Hsame & Hfirst & _).
  split; [exact Hsame | exact (Hfirst eq_refl)].
Defined.

Lemma loadFactories_then_factoryFor_witness :
  NoDup (Obj.keys [("author", Demo.postFactory)])
  /\ factoryFor
       (fst (fst (loadFactories Sample.createCollection
                    (Some [("author", Demo.postFactory)])
                    Demo.factories Demo.emptyDb))) "author"
     = Some (Registered Demo.postFactory)
  /\ factoryFor
       (fst (fst (loadFactories Sample.createCollection
                    (Some [("author", Demo.postFactory)])
                    Demo.factories Demo.emptyDb))) "comment"
     = Some (Registered Demo.commentFactory)
  /\ factoryFor None "constructor" = None
  /\ factoryFor
       (fst (fst (loadFactories Sample.createCollection None None
                                Demo.emptyDb))) "constructor"
     = Some (InheritedMember "constructor").
Proof.
  assert (Hnodup : NoDup (Obj.keys [("author", Demo.postFactory)])).
  { constructor; [intros [] | constructor]. }
  split; [exact Hnodup | ]. split.
  - exact (proj1 (@loadFactories_then_factoryFor Demo.naming Demo.backend
                    Sample.createCollection [("author", Demo.postFactory)]
                    Demo.factories Demo.emptyDb "author" Hnodup)).
  - split.
    + exact (proj1 (@loadFactories_then_factoryFor Demo.naming Demo.backend
                      Sample.createCollection [("author", Demo.postFactory)]
                      Demo.factories Demo.emptyDb "comment" Hnodup)).
    + destruct (@loadFactories_then_factoryFor Demo.naming Demo.backend
                  Sample.createCollection [("author", Demo.postFactory)]
                  None Demo.emptyDb "constructor" Hnodup)
        as (_ & _ & _ & _ & _ & Hinherited & _).
      exact (Hinherited eq_refl eq_refl).
Defined.

Lemma resource_refuses_only_with_except_witness :
  ["index"] <> [] /\ ["show"] <> []
  /\ resource Sample.record "contact" (Some ["index"]) (Some ["show"]) None []
     = ([], Some (ThrownString "cannot use both :only and :except options")).
Proof.
  assert (Ho : ["index"] <> []) by discriminate.
  assert (He : ["show"] <> []) by discriminate.
  split; [exact Ho | ]. split; [exact He | ].
  exact (@resource_refuses_only_with_except Demo.naming Sample.Calls
           Sample.record "contact" ["index"] ["show"] None [] Ho He).
Defined.

Lemma resource_registers_six_routes_witness :
  resource Sample.record "contact" None None None []
  = ([("get", ["/contacts"; "contacts"]);
      ("get", ["/contacts/:id"; "contacts"]);
      ("post", ["/contacts"; "contacts"]);
      ("put", ["/contacts/:id"; "contacts"]);
      ("patch", ["/contacts/:id"; "contacts"]);
      ("del", ["/contacts/:id"; "contacts"])], None).
Proof.
  rewrite (proj1 (@resource_registers_six_routes Demo.naming Sample.Calls
                    Sample.record "contact" None None None []
                    (or_introl eq_refl) (or_introl eq_refl))).
  reflexivity.
Defined.

Lemma resource_except_is_the_complement_witness :
  ["show"; "nothing"] <> []
  /\ resource Sample.record "contact" None (Some ["show"; "nothing"]) None []
     = resource Sample.record "contact"
                (Some ["index"; "create"; "update"; "delete"]) None None []
  /\ resource Sample.record "contact" None
              (Some ["index"; "show"; "create"; "update"; "delete"]) None []
     = ([], None).
Proof.
  assert (He : ["show"; "nothing"] <> []) by discriminate.
  assert (Hall : ["index"; "show"; "create"; "update"; "delete"] <> [])
    by discriminate.
  split; [exact He | ]. split.
  - apply (proj1 (@resource_except_is_the_complement Demo.naming Sample.Calls
                    Sample.record "contact" ["show"; "nothing"] None [] He)).
    discriminate.
  - apply (proj1 (proj2 (@resource_except_is_the_complement Demo.naming
                           Sample.Calls Sample.record "contact"
                           ["index"; "show"; "create"; "update"; "delete"]
                           None [] Hall))).
    reflexivity.
Defined.

Lemma resource_unknown_action_witness :
  ~ In "list" allActions
  /\ resource Sample.record "contact" (Some ["index"; "list"; "show"]) None
              None []
     = ([("get", ["/contacts"; "contacts"])], Some ThrownTypeError).
Proof.
  assert (Hunknown : ~ In "list" allActions).
  { simpl. intuition discriminate. }
  split; [exact Hunknown | ].
  assert (Hbefore : ["index"] <> []) by discriminate.
  etransitivity.
  - exact (proj2 (@resource_unknown_action Demo.naming Sample.Calls
                    Sample.record "contact" ["index"] ["show"] "list" None []
                    Hunknown) Hbefore).
  - reflexivity.
Defined.

Lemma create_fails_as_build_fails_witness :
  _modelOrFactoryExistsForType "comment" Demo.fresh = true
  /\ build Demo.factories 0 "comment" [VStr "Z"; VNum 3] Demo.fresh
     = (advance "comment" Demo.fresh,
        Throw (mkError ConfigurationError (unknownTraitMessage "Z" "comment")))
  /\ create Demo.factories 1 "comment" [VStr "Z"; VNum 3] Demo.fresh
     = (advance "comment" Demo.fresh,
        Throw (mkError ConfigurationError (unknownTraitMessage "Z" "comment"))).
Proof.
  split; [reflexivity | ]. split; [reflexivity | ].
  exact (@create_fails_as_build_fails Demo.naming Demo.backend Demo.factories
           0 "comment" [VStr "Z"; VNum 3] Demo.fresh
           (advance "comment" Demo.fresh)
           (mkError ConfigurationError (unknownTraitMessage "Z" "comment"))
           eq_refl eq_refl).
Defined.

Lemma create_returns_the_stored_record_witness :
  _modelOrFactoryExistsForType "author" Demo.fresh = true
  /\ build Demo.factories 0 "author" [] Demo.fresh
     = (advance "author" Demo.fresh, Ok (VObj [("name", VNum 0)]))
  /\ insertRecord "author" [] (VObj [("name", VNum 0)])
                  (advance "author" Demo.fresh)
     = (mkServer ([("authors", [VObj [("name", VNum 0); ("id", VNum 1)]])] : Db)
                 (Some [("author", Count 0)]),
        Ok (VObj [("name", VNum 0); ("id", VNum 1)]))
  /\ create Demo.factories 1 "author" [] Demo.fresh
     = (mkServer ([("authors", [VObj [("name", VNum 0); ("id", VNum 1)]])] : Db)
                 (Some [("author", Count 0)]),
        Ok (VObj [("name", VNum 0); ("id", VNum 1)])).
Proof.
  assert (Hbuild : build Demo.factories 0 "author" [] Demo.fresh
                   = (advance "author" Demo.fresh, Ok (VObj [("name", VNum 0)])))
    by (vm_compute; reflexivity).
  assert (Hinsert :
            insertRecord "author" [] (VObj [("name", VNum 0)])
                         (advance "author" Demo.fresh)
            = (mkServer
                 ([("authors", [VObj [("name", VNum 0); ("id", VNum 1)]])] : Db)
                 (Some [("author", Count 0)]),
               Ok (VObj [("name", VNum 0); ("id", VNum 1)])))
    by (vm_compute; reflexivity).
  split; [reflexivity | ]. split; [exact Hbuild | ]. split; [exact Hinsert | ].
  destruct (@create_returns_the_stored_record Demo.naming Demo.backend
              Demo.factories 0 "author" [] Demo.fresh _ _ _ _
              eq_refl Hbuild Hinsert) as (Hok & _).
  apply Hok. vm_compute. reflexivity.
Defined.

Lemma inherited_member_is_no_factory_witness :
  let s := mkServer ([("_constructors", [])] : Db) None in
  Obj.lookup "constructor"
    [("author", Demo.authorFactory); ("post", Demo.postFactory);
     ("comment", Demo.commentFactory)] = None
  /\ inheritedMember "constructor" = true
  /\ _modelOrFactoryExistsForType "constructor" s = true
  /\ create Demo.factories 1 "constructor" [VObj [("a", VNum 1)]] s
     = (mkServer ([("_constructors", [])] : Db)
                 (Some [("constructor", Text "constructor" 1)]),
        Throw (mkError TypeError "OriginalFactory.extend is not a function")).
Proof.
  cbv zeta.
  split; [reflexivity | ]. split; [reflexivity | ]. split; [reflexivity | ].
  destruct (@inherited_member_is_no_factory Demo.naming Demo.backend
              Demo.factories 0 "constructor"
              [("author", Demo.authorFactory); ("post", Demo.postFactory);
               ("comment", Demo.commentFactory)]
              [VObj [("a", VNum 1)]]
              (@mkServer Demo.backend [("_constructors", [])] None)
              eq_refl eq_refl eq_refl)
    as (_ & _ & Hcreate & _).
  exact (Hcreate eq_refl).
Defined.
